(** * sbs1-web: the aircraft map client (static/gmap.js)

    A shallow embedding of the browser client's state (the [Planes]
    registry, the [Selected] identity, the marker objects of the mapping
    widget and the two text panels) and of its operations
    ([getIconForPlane], [selectPlane], [refreshSelectedInfo], [fetchData]),
    followed by the properties of the reconciliation and of the selection.

    Modelling conventions.
    - [Planes] is a JavaScript object used as a map; it is a [gmap] keyed
      by the identity.  Identities are taken not to collide with the
      member names of [Object.prototype] (an ICAO address is six hex
      digits).
    - JavaScript numbers are IEEE-754 binary64.  The altitude is an integer
      number of feet and is carried as a [Z]; the arithmetic of
      [getIconForPlane] is performed in binary64 through [SpecFloat].
      Integers are exact in binary64 up to [2^53] in magnitude.
    - The other numeric fields (latitude, longitude, speed, track) are only
      copied and printed; their type and their printing are parameters.
    - Marker objects live in a heap (a list indexed by handle), because a
      marker outlives the registry entry that owned it. *)

From Stdlib Require Import ZArith Ascii String Floats.SpecFloat QArith.QArith_base.
From stdpp Require Import gmap strings list fin_maps pretty.

Open Scope Z_scope.
Set Warnings "-clear-no-such-hyp".

(** ** Binary64 arithmetic used by [getIconForPlane] *)

Module Js.

Definition prec : Z := 53.
Definition emax : Z := 1024.

(** An integer literal or an integer-valued variable as a binary64. *)
Definition of_Z (z : Z) : spec_float := binary_normalize prec emax z 0 false.

Definition div (x y : spec_float) : spec_float := SFdiv prec emax x y.
Definition mul (x y : spec_float) : spec_float := SFmul prec emax x y.

(** [parseInt(x)] on a number [x]: the number is printed and the leading
    integer of the text is read back.  Zero prints as ["0"]; a finite [x]
    with [1e-6 <= |x| < 1e21] prints in positional notation, so the
    result is [x] truncated toward zero.  These are the only values that
    [getIconForPlane] produces for an integer altitude within [2^53]. *)
Definition parseInt (x : spec_float) : Z :=
  match x with
  | S754_finite s m e =>
      let a := match e with
               | Zneg p => Z.shiftr (Zpos m) (Zpos p)
               | _ => Z.shiftl (Zpos m) e
               end in
      if s then - a else a
  | _ => 0
  end.

End Js.

(** ** Whitespace trimming ([$.trim]) on ASCII strings *)

Definition is_space (a : ascii) : bool :=
  let n := nat_of_ascii a in
  (Nat.eqb n 32 || (Nat.leb 9 n && Nat.leb n 13))%bool.

Fixpoint ltrim (s : list ascii) : list ascii :=
  match s with
  | a :: s' => if is_space a then ltrim s' else s
  | [] => []
  end.

Definition trim (s : string) : string :=
  string_of_list_ascii
    (rev (ltrim (rev (ltrim (list_ascii_of_string s))))).

(** Callsigns as [$.trim] sees them.  The ASCII characters that [$.trim]
    strips are tab, line feed, vertical tab, form feed, carriage return
    and space ([white], by character code).  A string is [whitespace] when
    all its characters are of these, [tight] when it neither starts nor
    ends with one, and [ascii_only] when all its characters are ASCII: on
    such strings [$.trim] strips nothing else. *)
Definition white (c : ascii) : Prop :=
  In (nat_of_ascii c) [9; 10; 11; 12; 13; 32]%nat.

Definition whitespace (s : string) : Prop :=
  Forall white (list_ascii_of_string s).

Definition tight (s : string) : Prop :=
  (forall c, head (list_ascii_of_string s) = Some c -> ~ white c) /\
  (forall c, last (list_ascii_of_string s) = Some c -> ~ white c).

Definition ascii_only (s : string) : Prop :=
  Forall (fun c => Nat.ltb (nat_of_ascii c) 128 = true) (list_ascii_of_string s).

(** ** The blue channel of the marker colour *)

Definition maxalt : Z := 40000.

(** [invalt = maxalt - altitude; if (invalt < 0) invalt = 0] *)
Definition invalt (altitude : Z) : Z :=
  let i := maxalt - altitude in
  if i <? 0 then 0 else i.

(** [b = parseInt(255/maxalt*invalt)], evaluated left to right. *)
Definition blue (altitude : Z) : Z :=
  Js.parseInt
    (Js.mul (Js.div (Js.of_Z 255) (Js.of_Z maxalt)) (Js.of_Z (invalt altitude))).

(** The same computation with the quotient [255/maxalt] already
    evaluated to [c]. *)
Definition blue_scaled (c : spec_float) (altitude : Z) : Z :=
  Js.parseInt (Js.mul c (Js.of_Z (invalt altitude))).

(** Altitudes checked one by one: [all_between lo len ok] tests [ok a] for
    the [len] integers [a] from [lo] on. *)
Fixpoint all_from (ok : Z -> bool) (lo : Z) (n : nat) : bool :=
  match n with
  | O => true
  | S n' => ok lo && all_from ok (lo + 1) n'
  end.

Definition all_between (lo len : Z) (ok : Z -> bool) : bool :=
  all_from ok lo (Z.to_nat len).

(** ** Data model *)

(** One entry of [data.aircrafts], as parsed from the JSON document. *)
Module Json.
Record aircraft (number : Type) := {
  icao : string;
  flight : string;
  latitude : number;
  longitude : number;
  altitude : Z;
  speed : number;
  track : number
}.
Arguments icao {_} _.
Arguments flight {_} _.
Arguments latitude {_} _.
Arguments longitude {_} _.
Arguments altitude {_} _.
Arguments speed {_} _.
Arguments track {_} _.
End Json.

Inductive SymbolPath := FORWARD_CLOSED_ARROW.

(** The icon object literal built by [getIconForPlane]. *)
Record Icon (number : Type) := {
  strokeWeight : Z;
  path : SymbolPath;
  scale : Z;
  fillColor : string;
  fillOpacity : Q;
  rotation : number
}.
Arguments strokeWeight {_} _.
Arguments path {_} _.
Arguments scale {_} _.
Arguments fillColor {_} _.
Arguments fillOpacity {_} _.
Arguments rotation {_} _.

(** A [google.maps.Marker].  [onmap] is [true] while the marker's map is
    [Map] and [false] once [setMap(null)] was called; [title] and
    [planehex] are absent until they are set. *)
Record Marker (number : Type) := {
  position : number * number;
  onmap : bool;
  icon : Icon number;
  title : option string;
  planehex : option string
}.
Arguments position {_} _.
Arguments onmap {_} _.
Arguments icon {_} _.
Arguments title {_} _.
Arguments planehex {_} _.

(** A plane object: the parsed JSON entry, to which the client adds the
    properties [marker] (on creation) and [lat], [lon] (on update). *)
Record Plane (number : Type) := {
  icao : string;
  flight : string;
  latitude : number;
  longitude : number;
  altitude : Z;
  speed : number;
  track : number;
  lat : option number;
  lon : option number;
  marker : option nat
}.
Arguments icao {_} _.
Arguments flight {_} _.
Arguments latitude {_} _.
Arguments longitude {_} _.
Arguments altitude {_} _.
Arguments speed {_} _.
Arguments track {_} _.
Arguments lat {_} _.
Arguments lon {_} _.
Arguments marker {_} _.

(** The globals of the page, the marker heap and the two text panels. *)
Record State (number : Type) := {
  Planes : gmap string (Plane number);
  NumPlanes : nat;
  Selected : option string;
  markers : list (Marker number);
  selinfo : string;
  geninfo : string
}.
Arguments Planes {_} _.
Arguments NumPlanes {_} _.
Arguments Selected {_} _.
Arguments markers {_} _.
Arguments selinfo {_} _.
Arguments geninfo {_} _.

(** ** Operations *)

(** Number-to-string conversion of the fields the client only prints. *)
Class NumberToString (number : Type) := number_to_string : number -> string.

Section Client.

Context {number : Type} `{!NumberToString number}.

(** [Planes[k]] with [k] a variable that may hold [null]: the property
    key is the value converted to a string. *)
Definition prop_key (k : option string) : string :=
  match k with
  | Some s => s
  | None => "null"
  end.

(** The initial page: [Planes={}], [NumPlanes=0], [Selected=null]. *)
Definition init : State number :=
  {| Planes := ∅; NumPlanes := 0; Selected := None;
     markers := []; selinfo := ""; geninfo := "" |}.

Definition set_Planes (f : gmap string (Plane number) -> gmap string (Plane number))
    (st : State number) : State number :=
  {| Planes := f (Planes st); NumPlanes := NumPlanes st;
     Selected := Selected st; markers := markers st;
     selinfo := selinfo st; geninfo := geninfo st |}.

Definition set_NumPlanes (n : nat) (st : State number) : State number :=
  {| Planes := Planes st; NumPlanes := n;
     Selected := Selected st; markers := markers st;
     selinfo := selinfo st; geninfo := geninfo st |}.

Definition set_Selected (s : option string) (st : State number) : State number :=
  {| Planes := Planes st; NumPlanes := NumPlanes st;
     Selected := s; markers := markers st;
     selinfo := selinfo st; geninfo := geninfo st |}.

Definition set_markers (f : list (Marker number) -> list (Marker number))
    (st : State number) : State number :=
  {| Planes := Planes st; NumPlanes := NumPlanes st;
     Selected := Selected st; markers := f (markers st);
     selinfo := selinfo st; geninfo := geninfo st |}.

Definition set_selinfo (html : string) (st : State number) : State number :=
  {| Planes := Planes st; NumPlanes := NumPlanes st;
     Selected := Selected st; markers := markers st;
     selinfo := html; geninfo := geninfo st |}.

Definition set_geninfo (html : string) (st : State number) : State number :=
  {| Planes := Planes st; NumPlanes := NumPlanes st;
     Selected := Selected st; markers := markers st;
     selinfo := selinfo st; geninfo := html |}.

(** Methods of a marker object. *)
Definition setPosition (pos : number * number) (m : Marker number) : Marker number :=
  {| position := pos; onmap := onmap m; icon := icon m;
     title := title m; planehex := planehex m |}.

Definition setIcon (i : Icon number) (m : Marker number) : Marker number :=
  {| position := position m; onmap := onmap m; icon := i;
     title := title m; planehex := planehex m |}.

Definition setTitle (t : string) (m : Marker number) : Marker number :=
  {| position := position m; onmap := onmap m; icon := icon m;
     title := Some t; planehex := planehex m |}.

Definition setMap (b : bool) (m : Marker number) : Marker number :=
  {| position := position m; onmap := b; icon := icon m;
     title := title m; planehex := planehex m |}.

Definition set_planehex (k : string) (m : Marker number) : Marker number :=
  {| position := position m; onmap := onmap m; icon := icon m;
     title := title m; planehex := Some k |}.

(** A method call through a plane's [marker] property.  Every plane in
    the registry is stored together with its marker, so the [None] case
    is never taken on a registry entry. *)
Definition on_marker (h : option nat) (f : Marker number -> Marker number)
    (st : State number) : State number :=
  match h with
  | Some i => set_markers (alter f i) st
  | None => st
  end.

Definition getIconForPlane (Selected : option string) (plane : Plane number)
    : Icon number :=
  let r := 255 in
  let g := 255 in
  let selected := bool_decide (Selected = Some (icao plane)) in
  let b := blue (altitude plane) in
  {| strokeWeight := if selected then 2 else 1;
     path := FORWARD_CLOSED_ARROW;
     scale := 5;
     fillColor := "rgb(" +:+ pretty r +:+ "," +:+ pretty g +:+ "," +:+ pretty b +:+ ")";
     fillOpacity := 9 # 10;
     rotation := track plane |}.

Definition refreshGeneralInfo (st : State number) : State number :=
  set_geninfo (pretty (NumPlanes st) +:+ " planes on screen.") st.

(** A property that may be [undefined], in a string concatenation. *)
Definition show_prop (x : option number) : string :=
  match x with
  | Some v => number_to_string v
  | None => "undefined"
  end.

Definition refreshSelectedInfo (st : State number) : State number :=
  match Planes st !! prop_key (Selected st) with
  | None => st
  | Some p =>
      let html := "ICAO: " +:+ icao p +:+ "<br>" in
      let html :=
        if Nat.eqb (String.length (flight p)) 0 then html
        else html +:+ ("<b>" +:+ flight p +:+ "</b><br>") in
      let html := html +:+ ("Altitude: " +:+ pretty (altitude p) +:+ " feet<br>") in
      let html := html +:+ ("Speed: " +:+ number_to_string (speed p) +:+ " knots<br>") in
      let html := html +:+ ("Coordinates: " +:+ show_prop (lat p) +:+ ", "
                              +:+ show_prop (lon p) +:+ "<br>") in
      set_selinfo html st
  end.

(** The click handler of a marker; [planehex] is [this.planehex]. *)
Definition selectPlane (planehex : string) (st : State number) : State number :=
  match Planes st !! planehex with
  | None => st
  | Some _ =>
      let old := Selected st in
      let st := set_Selected (Some planehex) st in
      let st :=
        match Planes st !! prop_key old with
        | Some po => on_marker (marker po) (setIcon (getIconForPlane (Selected st) po)) st
        | None => st
        end in
      let st :=
        match Planes st !! prop_key (Selected st) with
        | Some pn => on_marker (marker pn) (setIcon (getIconForPlane (Selected st) pn)) st
        | None => st
        end in
      refreshSelectedInfo st
  end.

(** The object [data.aircrafts[j]] as a plane object. *)
Definition of_json (a : Json.aircraft number) : Plane number :=
  {| icao := Json.icao a; flight := Json.flight a;
     latitude := Json.latitude a; longitude := Json.longitude a;
     altitude := Json.altitude a; speed := Json.speed a;
     track := Json.track a; lat := None; lon := None; marker := None |}.

Definition set_flight (f : string) (p : Plane number) : Plane number :=
  {| icao := icao p; flight := f; latitude := latitude p;
     longitude := longitude p; altitude := altitude p; speed := speed p;
     track := track p; lat := lat p; lon := lon p; marker := marker p |}.

Definition set_marker (h : nat) (p : Plane number) : Plane number :=
  {| icao := icao p; flight := flight p; latitude := latitude p;
     longitude := longitude p; altitude := altitude p; speed := speed p;
     track := track p; lat := lat p; lon := lon p; marker := Some h |}.

(** The assignments [myplane.altitude = plane.altitude] ...
    [myplane.flight = plane.flight] of the update branch. *)
Definition update_plane (myplane plane : Plane number) : Plane number :=
  {| icao := icao myplane; flight := flight plane;
     latitude := latitude myplane; longitude := longitude myplane;
     altitude := altitude plane; speed := speed plane;
     track := track plane;
     lat := Some (latitude plane); lon := Some (longitude plane);
     marker := marker myplane |}.

(** The text given to [marker.setTitle] at the end of the loop body. *)
Definition title_text (plane : Plane number) : string :=
  if Nat.eqb (String.length (flight plane)) 0 then icao plane
  else flight plane +:+ " (" +:+ icao plane +:+ ")".

(** One iteration of the loop over [data.aircrafts]; [stillhere] is
    threaded along with the state. *)
Definition fetch_one (acc : State number * gset string) (a : Json.aircraft number)
    : State number * gset string :=
  let '(st, stillhere) := acc in
  let plane := of_json a in
  let stillhere := {[ icao plane ]} ∪ stillhere in
  let plane := set_flight (trim (flight plane)) plane in
  match Planes st !! icao plane with
  | Some myplane =>
      let marker := marker myplane in
      let st := on_marker marker (setPosition (latitude plane, longitude plane)) st in
      let st := on_marker marker (setIcon (getIconForPlane (Selected st) plane)) st in
      let myplane := update_plane myplane plane in
      let st := set_Planes (insert (icao plane) myplane) st in
      let st :=
        if bool_decide (Selected st = Some (icao myplane))
        then refreshSelectedInfo st else st in
      (on_marker marker (setTitle (title_text plane)) st, stillhere)
  | None =>
      let h := length (markers st) in
      let m := {| position := (latitude plane, longitude plane);
                  onmap := true;
                  icon := getIconForPlane (Selected st) plane;
                  title := None; planehex := None |} in
      let st := set_markers (fun ms => ms ++ [m]) st in
      let plane := set_marker h plane in
      let st := on_marker (marker plane) (set_planehex (icao plane)) st in
      let st := set_Planes (insert (icao plane) plane) st in
      (on_marker (marker plane) (setTitle (title_text plane)) st, stillhere)
  end.

(** One iteration of the loop over the keys of [Planes]. *)
Definition remove_idle (stillhere : gset string) (st : State number) (p : string)
    : State number :=
  if bool_decide (p ∈ stillhere) then st
  else
    match Planes st !! p with
    | Some e => set_Planes (delete p) (on_marker (marker e) (setMap false) st)
    | None => st
    end.

(** The callback of [$.getJSON('/data.json', ...)], run on the parsed
    response. *)
Definition fetchData (data : list (Json.aircraft number)) (st : State number)
    : State number :=
  let '(st, stillhere) := foldl fetch_one (st, ∅) data in
  let st := set_NumPlanes (length data) st in
  foldl (remove_idle stillhere) st (map_to_list (Planes st)).*1.

(** A click on the marker with handle [h] runs its listener. *)
Definition click (h : nat) (st : State number) : State number :=
  match markers st !! h with
  | Some m =>
      match planehex m with
      | Some k => selectPlane k st
      | None => st
      end
  | None => st
  end.

(** What the event loop can run: a response of the polling request, a
    click on a marker, the summary refresh of the timer. *)
Inductive event :=
| Response (data : list (Json.aircraft number))
| Click (h : nat)
| Tick.

Definition step (st : State number) (ev : event) : State number :=
  match ev with
  | Response data => fetchData data st
  | Click h => click h st
  | Tick => refreshGeneralInfo st
  end.

Definition run (evs : list event) : State number := foldl step init evs.

(** ** Predicates used by the properties *)

(** The marker object reached from the registry entry of [k]. *)
Definition marker_of (st : State number) (k : string) : option (Marker number) :=
  match Planes st !! k with
  | Some p =>
      match marker p with
      | Some h => markers st !! h
      | None => None
      end
  | None => None
  end.

(** Registry entries are stored under their own identity, each with a
    marker of its own that is on the map, carries the identity in
    [planehex] and shows the icon of the entry. *)
Definition wf (st : State number) : Prop :=
  forall k p, Planes st !! k = Some p ->
    icao p = k /\
    exists h m, marker p = Some h /\ markers st !! h = Some m /\
      planehex m = Some k /\ onmap m = true /\
      icon m = getIconForPlane (Selected st) p.

(** The selection, when set, names a key of the registry. *)
Definition selection_valid (st : State number) : Prop :=
  forall k, Selected st = Some k -> is_Some (Planes st !! k).

(** The identity set of a snapshot. *)
Definition ids (data : list (Json.aircraft number)) : gset string :=
  list_to_set (Json.icao <$> data).

(** The entry of a snapshot that is processed last for identity [k]. *)
Definition last_with (k : string) (data : list (Json.aircraft number))
    : option (Json.aircraft number) :=
  last (filter (fun a => Json.icao a = k) data).

(** The plane object of a snapshot entry after [plane.flight] was
    trimmed. *)
Definition trimmed (a : Json.aircraft number) : Plane number :=
  set_flight (trim (flight (of_json a))) (of_json a).

(** The marker created for an identity that is not in the registry. *)
Definition new_marker (sel : option string) (a : Json.aircraft number)
    : Marker number :=
  {| position := (Json.latitude a, Json.longitude a);
     onmap := true;
     icon := getIconForPlane sel (trimmed a);
     title := Some (title_text (trimmed a));
     planehex := Some (Json.icao a) |}.

(** The state in which the icon of the new selection is set: the
    selection is recorded and the previous selection, if it still
    resolves, has its icon recomputed. *)
Definition unhighlight (k : string) (st : State number) : State number :=
  match Planes st !! prop_key (Selected st) with
  | Some po =>
      on_marker (marker po) (setIcon (getIconForPlane (Some k) po))
        (set_Selected (Some k) st)
  | None => set_Selected (Some k) st
  end.

(** A marker that [setMap(null)] took off the map. *)
Definition offmap (st : State number) (h : nat) : Prop :=
  exists m, markers st !! h = Some m /\ onmap m = false.

(** The text that [refreshSelectedInfo] builds for the plane object [p]. *)
Definition detail_html (p : Plane number) : string :=
  let html := "ICAO: " +:+ icao p +:+ "<br>" in
  let html :=
    if Nat.eqb (String.length (flight p)) 0 then html
    else html +:+ ("<b>" +:+ flight p +:+ "</b><br>") in
  let html := html +:+ ("Altitude: " +:+ pretty (altitude p) +:+ " feet<br>") in
  let html := html +:+ ("Speed: " +:+ number_to_string (speed p) +:+ " knots<br>") in
  html +:+ ("Coordinates: " +:+ show_prop (lat p) +:+ ", "
              +:+ show_prop (lon p) +:+ "<br>").

(** Every marker that is on the map is the marker of the registry entry
    of the identity it carries. *)
Definition no_orphans (st : State number) : Prop :=
  forall h m, markers st !! h = Some m -> onmap m = true ->
    exists k p, planehex m = Some k /\ Planes st !! k = Some p /\
      marker p = Some h.

(** What [setIcon] leaves of a marker. *)
Definition sans_icon (m : Marker number)
    : (number * number) * bool * option string * option string :=
  (position m, onmap m, title m, planehex m).

End Client.

(** ** A concrete instance: numbers printed as integers *)

Module Example.

#[export] Instance Z_to_string : NumberToString Z := fun z => pretty z.

Definition a1 : Json.aircraft Z :=
  {| Json.icao := "A1"; Json.flight := ""; Json.latitude := 10;
     Json.longitude := 20; Json.altitude := 0; Json.speed := 100;
     Json.track := 90 |}.

Definition a1' : Json.aircraft Z :=
  {| Json.icao := "A1"; Json.flight := "UAL123 "; Json.latitude := 11;
     Json.longitude := 21; Json.altitude := 40000; Json.speed := 120;
     Json.track := 45 |}.

Definition b2 : Json.aircraft Z :=
  {| Json.icao := "B2"; Json.flight := "KLM7"; Json.latitude := 12;
     Json.longitude := 22; Json.altitude := 20000; Json.speed := 300;
     Json.track := 180 |}.

Definition low : Json.aircraft Z :=
  {| Json.icao := "C3"; Json.flight := ""; Json.latitude := 31;
     Json.longitude := 35; Json.altitude := -1; Json.speed := 80;
     Json.track := 0 |}.

Definition blank : Json.aircraft Z :=
  {| Json.icao := "D4"; Json.flight := "  "; Json.latitude := 50;
     Json.longitude := 8; Json.altitude := 12000; Json.speed := 250;
     Json.track := 270 |}.

End Example.

(** ** Facts about the binary64 operations *)

Section Binary64.

Lemma digits2_pos_bounds (p : positive) :
  2 ^ (Zpos (digits2_pos p) - 1) <= Zpos p < 2 ^ Zpos (digits2_pos p).
Proof.
  induction p as [p IH|p IH|]; simpl digits2_pos.
  - rewrite Pos2Z.inj_succ.
    replace (Z.succ (Zpos (digits2_pos p)) - 1) with (Z.succ (Zpos (digits2_pos p) - 1)) by lia.
    rewrite !Z.pow_succ_r by lia. lia.
  - rewrite Pos2Z.inj_succ.
    replace (Z.succ (Zpos (digits2_pos p)) - 1) with (Z.succ (Zpos (digits2_pos p) - 1)) by lia.
    rewrite !Z.pow_succ_r by lia. lia.
  - simpl. lia.
Qed.

Lemma Zdigits2_bounds (m : Z) :
  0 < m -> 2 ^ (Zdigits2 m - 1) <= m < 2 ^ Zdigits2 m.
Proof. destruct m as [|p|p]; [lia | intros _ | lia]. apply digits2_pos_bounds. Qed.

Lemma Zdigits2_pos (m : Z) : 0 < m -> 0 < Zdigits2 m.
Proof. destruct m; simpl; lia. Qed.

(** The bit length is monotone. *)
Lemma Zdigits2_lower (m t : Z) : 0 <= t -> 2 ^ t <= m -> t < Zdigits2 m.
Proof.
  intros Ht Hm. assert (0 < m) as Hpos by (pose proof (Z.pow_pos_nonneg 2 t); lia).
  pose proof (Zdigits2_bounds m Hpos) as [_ Hu].
  apply (Z.pow_lt_mono_r_iff 2); [lia | pose proof (Zdigits2_pos m Hpos); lia | lia].
Qed.

Lemma Zdigits2_upper (m t : Z) : 0 < m -> 0 <= t -> m < 2 ^ t -> Zdigits2 m <= t.
Proof.
  intros Hpos Ht Hm.
  pose proof (Zdigits2_bounds m Hpos) as [Hl _].
  pose proof (Zdigits2_pos m Hpos).
  assert (Zdigits2 m - 1 < t); [|lia].
  apply (Z.pow_lt_mono_r_iff 2); lia.
Qed.

Lemma shr_m_shr_1 mrs : 0 <= shr_m mrs -> shr_m (shr_1 mrs) = shr_m mrs / 2.
Proof.
  destruct mrs as [m r s]. simpl. rewrite <- Z.div2_div.
  destruct m as [|[p|p|]|p]; simpl; (reflexivity || lia).
Qed.

Lemma shr_m_iter (p : positive) mrs :
  0 <= shr_m mrs -> shr_m (SpecFloat.iter_pos shr_1 p mrs) = shr_m mrs / 2 ^ Zpos p.
Proof.
  revert mrs. induction p as [p IH|p IH|]; intros mrs Hm; simpl SpecFloat.iter_pos.
  - assert (0 <= shr_m (shr_1 mrs)) as H1
      by (rewrite shr_m_shr_1 by done; apply Z.div_pos; lia).
    assert (0 < 2 ^ Zpos p) as Hp by (apply Z.pow_pos_nonneg; lia).
    assert (0 <= shr_m (SpecFloat.iter_pos shr_1 p (shr_1 mrs))) as H2
      by (rewrite IH by done; apply Z.div_pos; lia).
    rewrite IH, IH, shr_m_shr_1 by done.
    rewrite !Z.div_div by lia. f_equal.
    replace (Zpos p~1) with (1 + Zpos p + Zpos p) by lia.
    rewrite !Z.pow_add_r by lia. lia.
  - assert (0 < 2 ^ Zpos p) as Hp by (apply Z.pow_pos_nonneg; lia).
    assert (0 <= shr_m (SpecFloat.iter_pos shr_1 p mrs)) as H2
      by (rewrite IH by done; apply Z.div_pos; lia).
    rewrite IH, IH by done.
    rewrite !Z.div_div by lia. f_equal.
    replace (Zpos p~0) with (Zpos p + Zpos p) by lia.
    rewrite !Z.pow_add_r by lia. lia.
  - by apply shr_m_shr_1.
Qed.

(** Shifting a long mantissa down to 53 bits. *)
Lemma shr_fexp_normal (m ex : Z) (l : location) :
  0 < m -> 53 <= Zdigits2 m -> -1074 <= ex + Zdigits2 m - 53 ->
  exists mrs,
    shr_fexp Js.prec Js.emax m ex l = (mrs, ex + Zdigits2 m - 53) /\
    shr_m mrs = m / 2 ^ (Zdigits2 m - 53).
Proof.
  intros Hm Hd He. unfold shr_fexp, fexp, emin, Js.prec, Js.emax.
  rewrite Z.max_l by lia.
  replace (Zdigits2 m + ex - 53 - ex) with (Zdigits2 m - 53) by lia.
  assert (forall mm ll, shr_m (shr_record_of_loc mm ll) = mm) as Hrec
    by (intros mm [|[]]; reflexivity).
  destruct (Zdigits2 m - 53) as [|p|p] eqn:Hk; [| |lia].
  - eexists. split; [simpl; f_equal; lia|]. rewrite Hrec, Z.pow_0_r, Z.div_1_r. done.
  - eexists. split; [simpl; f_equal; lia|].
    rewrite shr_m_iter; rewrite Hrec; [done | lia].
Qed.

Lemma normal_mantissa (m : Z) :
  0 < m -> 53 <= Zdigits2 m ->
  2 ^ 52 <= m / 2 ^ (Zdigits2 m - 53) < 2 ^ 53.
Proof.
  intros Hm Hd. pose proof (Zdigits2_bounds m Hm) as [Hl Hu].
  assert (0 < 2 ^ (Zdigits2 m - 53)) as Hp by (apply Z.pow_pos_nonneg; lia).
  split.
  - apply Z.div_le_lower_bound; [done|].
    rewrite <- Z.pow_add_r by lia.
    by replace (Zdigits2 m - 53 + 52) with (Zdigits2 m - 1) by lia.
  - apply Z.div_lt_upper_bound; [done|].
    rewrite <- Z.pow_add_r by lia.
    by replace (Zdigits2 m - 53 + 53) with (Zdigits2 m) by lia.
Qed.

Lemma round_nearest_even_bounds (m : Z) (l : location) :
  m <= round_nearest_even m l <= m + 1.
Proof. destruct l as [|[]]; simpl; try destruct (Z.even m); lia. Qed.

(** Rounding a positive mantissa of at least 53 bits gives a normal
    number: a 53-bit mantissa, the exponent raised by the bits dropped
    (and by one more when rounding up carries). *)
Lemma binary_round_aux_normal (mx ex : Z) (l : location) :
  0 < mx -> 53 <= Zdigits2 mx ->
  -1074 <= ex + Zdigits2 mx - 53 -> ex + Zdigits2 mx - 52 <= 971 ->
  exists m e,
    binary_round_aux Js.prec Js.emax false mx ex l = S754_finite false m e /\
    2 ^ 52 <= Zpos m < 2 ^ 53 /\
    ex + Zdigits2 mx - 53 <= e <= ex + Zdigits2 mx - 52.
Proof.
  intros Hm Hd Hlo Hhi. unfold binary_round_aux.
  destruct (shr_fexp_normal mx ex l Hm Hd Hlo) as (mrs1 & -> & Hm1).
  pose proof (normal_mantissa mx Hm Hd) as Hn1. rewrite <- Hm1 in Hn1.
  pose proof (round_nearest_even_bounds (shr_m mrs1) (loc_of_shr_record mrs1)) as Hr.
  set (m2 := round_nearest_even (shr_m mrs1) (loc_of_shr_record mrs1)) in *.
  set (e1 := ex + Zdigits2 mx - 53) in *.
  assert (0 < m2) as Hm2 by lia.
  assert (53 <= Zdigits2 m2 <= 54) as Hd2.
  { split.
    - assert (52 < Zdigits2 m2); [|lia]. apply Zdigits2_lower; lia.
    - apply Zdigits2_upper; [done | lia |].
      change (2 ^ 54) with (2 * 2 ^ 53). lia. }
  destruct (shr_fexp_normal m2 e1 loc_Exact Hm2) as (mrs2 & -> & Hm3); [lia.. |].
  pose proof (normal_mantissa m2 Hm2 (proj1 Hd2)) as Hn2. rewrite <- Hm3 in Hn2.
  destruct (shr_m mrs2) as [|m|m] eqn:Hs; [lia | | lia].
  assert ((e1 + Zdigits2 m2 - 53 <=? Js.emax - Js.prec) = true) as ->
    by (apply Z.leb_le; unfold Js.emax, Js.prec; lia).
  exists m, (e1 + Zdigits2 m2 - 53). split; [done|]. split; [done|]. lia.
Qed.

Lemma digits2_pos_iter_xO (p j : positive) :
  digits2_pos (Pos.iter xO p j) = (digits2_pos p + j)%positive.
Proof.
  apply (Pos.iter_ind _ xO p (fun j a => digits2_pos a = (digits2_pos p + j)%positive)).
  - simpl. by rewrite Pos.add_1_r.
  - intros q a' IH. simpl. by rewrite IH, Pos.add_succ_r.
Qed.

(** A positive integer as a binary64: a normal number whose exponent
    follows the bit length of the integer. *)
Lemma of_Z_normal (n : Z) :
  0 < n -> Zdigits2 n <= 1000 ->
  exists m e,
    Js.of_Z n = S754_finite false m e /\
    2 ^ 52 <= Zpos m < 2 ^ 53 /\
    Zdigits2 n - 53 <= e <= Zdigits2 n - 52.
Proof.
  destruct n as [|p|p]; [lia | intros _ Hd | lia].
  unfold Js.of_Z, binary_normalize, binary_round, shl_align, fexp, emin,
    Js.prec, Js.emax.
  simpl Zdigits2 in Hd.
  rewrite Z.max_l by lia.
  destruct (Zpos (digits2_pos p) + 0 - 53 - 0) as [|j|j] eqn:Hj.
  - destruct (binary_round_aux_normal (Zpos p) 0 loc_Exact) as (m & e & Heq & ? & ?);
      simpl Zdigits2; [lia.. |].
    exists m, e. split; [exact Heq|]. simpl Zdigits2 in *. lia.
  - destruct (binary_round_aux_normal (Zpos p) 0 loc_Exact) as (m & e & Heq & ? & ?);
      simpl Zdigits2; [lia.. |].
    exists m, e. split; [exact Heq|]. simpl Zdigits2 in *. lia.
  - assert (Zdigits2 (Zpos (Pos.iter xO p j)) = 53) as Hd'.
    { simpl. rewrite digits2_pos_iter_xO. lia. }
    destruct (binary_round_aux_normal (Zpos (Pos.iter xO p j))
                (Zpos (digits2_pos p) + 0 - 53) loc_Exact)
      as (m & e & Heq & ? & ?); rewrite ?Hd'; [lia.. |].
    exists m, e. split; [exact Heq|]. rewrite Hd' in *. simpl Zdigits2. lia.
Qed.

Lemma Zpos_iter_xO (p j : positive) :
  Zpos (Pos.iter xO p j) = Zpos p * 2 ^ Zpos j.
Proof.
  apply (Pos.iter_ind _ xO p (fun j a => Zpos a = Zpos p * 2 ^ Zpos j)).
  - rewrite Z.pow_1_r. lia.
  - intros q a' IH. rewrite Pos2Z.inj_succ, Z.pow_succ_r by lia. lia.
Qed.

(** A 53-bit mantissa is not changed by rounding. *)
Lemma binary_round_aux_exact (m : positive) (ex : Z) :
  Zpos (digits2_pos m) = 53 -> -1074 <= ex <= 971 ->
  binary_round_aux Js.prec Js.emax false (Zpos m) ex loc_Exact
    = S754_finite false m ex.
Proof.
  intros Hd He. unfold binary_round_aux, shr_fexp, fexp, emin, Js.prec, Js.emax.
  simpl Zdigits2. rewrite Hd, Z.max_l by lia.
  replace (53 + ex - 53 - ex) with 0 by lia. simpl.
  rewrite Hd, Z.max_l by lia.
  replace (53 + ex - 53 - ex) with 0 by lia. simpl.
  by rewrite (proj2 (Z.leb_le ex (1024 - 53))) by lia.
Qed.

(** An integer below [2^53] is represented exactly. *)
Lemma of_Z_exact (n : Z) :
  0 < n < 2 ^ 53 ->
  exists m,
    Js.of_Z n = S754_finite false m (Zdigits2 n - 53) /\
    Zpos m = n * 2 ^ (53 - Zdigits2 n).
Proof.
  destruct n as [|p|p]; [lia | intros [_ Hn] | lia].
  assert (Zpos (digits2_pos p) <= 53) as Hd
    by (apply (Zdigits2_upper (Zpos p)); lia).
  unfold Js.of_Z, binary_normalize, binary_round, shl_align, fexp, emin,
    Js.prec, Js.emax.
  simpl Zdigits2. rewrite Z.max_l by lia.
  destruct (Zpos (digits2_pos p) + 0 - 53 - 0) as [|j|j] eqn:Hj; [|lia|].
  - exists p. split.
    + replace (Zpos (digits2_pos p) - 53) with 0 by lia.
      apply (binary_round_aux_exact p 0); lia.
    + replace (53 - Zpos (digits2_pos p)) with 0 by lia. lia.
  - exists (Pos.iter xO p j). split.
    + replace (Zpos (digits2_pos p) + 0 - 53) with (Zpos (digits2_pos p) - 53) by lia.
      apply (binary_round_aux_exact (Pos.iter xO p j)); [|lia].
      rewrite digits2_pos_iter_xO. lia.
    + rewrite Zpos_iter_xO. f_equal. f_equal. lia.
Qed.

(** The product of two positive normal numbers is a normal number. *)
Lemma mul_normal (mx my : positive) (ex ey : Z) :
  2 ^ 52 <= Zpos mx < 2 ^ 53 -> 2 ^ 52 <= Zpos my < 2 ^ 53 ->
  -1126 <= ex + ey <= 917 ->
  exists m e,
    Js.mul (S754_finite false mx ex) (S754_finite false my ey)
      = S754_finite false m e /\
    2 ^ 52 <= Zpos m < 2 ^ 53 /\
    ex + ey + 52 <= e <= ex + ey + 54.
Proof.
  intros Hx Hy He. unfold Js.mul, SFmul. simpl xorb.
  assert (105 <= Zdigits2 (Zpos (mx * my)) <= 106) as Hd.
  { rewrite Pos2Z.inj_mul. split.
    - assert (104 < Zdigits2 (Zpos mx * Zpos my)); [|lia].
      apply Zdigits2_lower; [lia|].
      change (2 ^ 104) with (2 ^ 52 * 2 ^ 52). nia.
    - apply Zdigits2_upper; [lia | lia |].
      change (2 ^ 106) with (2 ^ 53 * 2 ^ 53). nia. }
  destruct (binary_round_aux_normal (Zpos (mx * my)) (ex + ey) loc_Exact)
    as (m & e & Heq & ? & ?); [lia.. |].
  exists m, e. split; [exact Heq|]. lia.
Qed.

End Binary64.

(** ** The blue channel *)

Section Blue.

(** The constant [255/maxalt] is the binary64 nearest to 0.006375, which
    lies below it. *)
Lemma scale_constant :
  Js.div (Js.of_Z 255) (Js.of_Z maxalt)
    = S754_finite false 7349874591868649 (-60).
Proof. vm_compute. reflexivity. Qed.

Lemma invalt_below_ceiling (altitude : Z) :
  altitude <= maxalt -> invalt altitude = maxalt - altitude.
Proof. unfold invalt, maxalt. intros H. by rewrite (proj2 (Z.ltb_ge _ _)) by lia. Qed.

Lemma invalt_above_ceiling (altitude : Z) :
  maxalt <= altitude -> invalt altitude = 0.
Proof.
  unfold invalt, maxalt. intros H.
  destruct (40000 - altitude <? 0) eqn:E; [done|].
  apply Z.ltb_ge in E. lia.
Qed.

(** At and above the ceiling the channel is 0. *)
Lemma blue_ceiling (altitude : Z) : maxalt <= altitude -> blue altitude = 0.
Proof. intros H. unfold blue. by rewrite invalt_above_ceiling. Qed.

(** The argument of [parseInt] for an altitude below the ceiling is a
    positive normal number between [2^-8] and [2^49]: it prints in
    positional notation. *)
Lemma blue_argument (altitude : Z) :
  - 2 ^ 53 <= altitude < maxalt ->
  exists m e,
    Js.mul (Js.div (Js.of_Z 255) (Js.of_Z maxalt)) (Js.of_Z (invalt altitude))
      = S754_finite false m e /\
    2 ^ 52 <= Zpos m < 2 ^ 53 /\
    Zdigits2 (maxalt - altitude) - 61 <= e <= Zdigits2 (maxalt - altitude) - 58 /\
    -60 <= e <= -3.
Proof.
  intros Ha. rewrite invalt_below_ceiling, scale_constant by lia.
  assert (0 < maxalt - altitude) as Hn by lia.
  assert (1 <= Zdigits2 (maxalt - altitude) <= 55) as Hd.
  { split; [pose proof (Zdigits2_pos _ Hn); lia|].
    apply Zdigits2_upper; [done | lia |]. unfold maxalt.
    change (2 ^ 55) with (4 * 2 ^ 53). lia. }
  destruct (of_Z_normal (maxalt - altitude)) as (mn & en & -> & Hmn & Hen); [lia.. |].
  destruct (mul_normal 7349874591868649 mn (-60) en) as (m & e & -> & Hm & He);
    [lia | done | lia |].
  exists m, e. repeat split; lia.
Qed.

Lemma parseInt_lower (m : positive) (e t : Z) :
  2 ^ 52 <= Zpos m -> 0 <= t <= 52 -> t - 52 <= e ->
  2 ^ t <= Js.parseInt (S754_finite false m e).
Proof.
  intros Hm Ht He. simpl.
  assert (0 < 2 ^ t) by (apply Z.pow_pos_nonneg; lia).
  assert (2 ^ t <= 2 ^ 52) by (apply Z.pow_le_mono_r; lia).
  destruct e as [|p|p].
  - rewrite Z.shiftl_mul_pow2 by lia. lia.
  - rewrite Z.shiftl_mul_pow2 by lia.
    assert (0 < 2 ^ Zpos p) by (apply Z.pow_pos_nonneg; lia). nia.
  - rewrite Z.shiftr_div_pow2 by lia.
    assert (0 < 2 ^ Zpos p) by (apply Z.pow_pos_nonneg; lia).
    apply Z.div_le_lower_bound; [done|].
    rewrite <- Z.pow_add_r by lia.
    etrans; [|exact Hm]. apply Z.pow_le_mono_r; lia.
Qed.

(** With the inverted altitude at 40157 or more the product reaches 256:
    [255/40000] is [7349874591868649 * 2^-60], and
    [7349874591868649 * 40157 >= 2^68]. *)
Lemma blue_exceeds (altitude : Z) :
  - 2 ^ 53 <= altitude <= -157 -> 256 <= blue altitude.
Proof.
  intros Ha. unfold blue.
  rewrite invalt_below_ceiling, scale_constant by (unfold maxalt; lia).
  set (n := maxalt - altitude).
  assert (40157 <= n) as Hn by (unfold n, maxalt; lia).
  destruct (Z_lt_ge_dec n (2 ^ 53)) as [Hsmall|Hlarge].
  - destruct (of_Z_exact n) as (mn & -> & Hmn); [lia|].
    assert (16 <= Zdigits2 n <= 53) as Hd.
    { split.
      - assert (15 < Zdigits2 n); [|lia]. apply Zdigits2_lower; lia.
      - apply Zdigits2_upper; lia. }
    unfold Js.mul, SFmul. simpl xorb.
    set (P := Zpos (7349874591868649 * mn)).
    assert (P = 7349874591868649 * n * 2 ^ (53 - Zdigits2 n)) as HP
      by (unfold P; rewrite Pos2Z.inj_mul, Hmn; lia).
    assert (0 < 2 ^ (53 - Zdigits2 n)) as Hpow by (apply Z.pow_pos_nonneg; lia).
    assert (2 ^ (121 - Zdigits2 n) <= P) as Hlo.
    { rewrite HP. replace (121 - Zdigits2 n) with (68 + (53 - Zdigits2 n)) by lia.
      rewrite Z.pow_add_r by lia. apply Z.mul_le_mono_nonneg_r; lia. }
    assert (P < 2 ^ 106) as Hhi.
    { pose proof (Zdigits2_bounds n ltac:(lia)) as [_ Hu].
      assert (Zpos mn < 2 ^ 53) as Hmn'.
      { rewrite Hmn.
        replace 53 with (Zdigits2 n + (53 - Zdigits2 n)) at 2 by lia.
        rewrite Z.pow_add_r by lia.
        apply Z.mul_lt_mono_pos_r; lia. }
      unfold P. rewrite Pos2Z.inj_mul.
      change (2 ^ 106) with (2 ^ 53 * 2 ^ 53). nia. }
    assert (122 - Zdigits2 n <= Zdigits2 P <= 106) as HdP.
    { split.
      - assert (121 - Zdigits2 n < Zdigits2 P); [|lia]. apply Zdigits2_lower; lia.
      - apply Zdigits2_upper; lia. }
    destruct (binary_round_aux_normal P (-60 + (Zdigits2 n - 53)) loc_Exact)
      as (m & e & Heq & Hm & He); [lia.. |].
    change (binary_round_aux 53 1024 false P (-60 + (Zdigits2 n - 53)) loc_Exact)
      with (binary_round_aux Js.prec Js.emax false P (-60 + (Zdigits2 n - 53)) loc_Exact).
    rewrite Heq. apply (parseInt_lower m e 8); lia.
  - assert (54 <= Zdigits2 n <= 55) as Hd.
    { split.
      - assert (53 < Zdigits2 n); [|lia]. apply Zdigits2_lower; lia.
      - apply Zdigits2_upper; [lia | lia |]. unfold n, maxalt.
        change (2 ^ 55) with (4 * 2 ^ 53). lia. }
    destruct (of_Z_normal n) as (mn & en & -> & Hmn & Hen); [lia.. |].
    destruct (mul_normal 7349874591868649 mn (-60) en) as (m & e & -> & Hm & He);
      [lia | done | lia |].
    apply (parseInt_lower m e 8); lia.
Qed.

Lemma all_from_spec ok n lo a :
  all_from ok lo n = true -> lo <= a < lo + Z.of_nat n -> ok a = true.
Proof.
  revert lo. induction n as [|n IH]; intros lo Ht Ha; [lia|].
  simpl in Ht. apply andb_prop in Ht as [H1 H2].
  destruct (decide (a = lo)) as [->|Hne]; [done|].
  apply (IH (lo + 1)); [done | lia].
Qed.

Lemma all_between_spec lo len ok a :
  all_between lo len ok = true -> lo <= a < lo + len -> ok a = true.
Proof.
  unfold all_between. intros Ht Ha.
  apply (all_from_spec ok (Z.to_nat len) lo); [done | lia].
Qed.

Lemma blue_scaled_eq (altitude : Z) :
  blue altitude = blue_scaled (S754_finite false 7349874591868649 (-60)) altitude.
Proof. unfold blue, blue_scaled. by rewrite scale_constant. Qed.

(** Strictly between sea level and the ceiling the channel is the
    integer part of the exact interpolation. *)
Lemma blue_interpolates (altitude : Z) :
  0 < altitude <= maxalt ->
  blue altitude = 255 * (maxalt - altitude) / maxalt.
Proof.
  intros Ha. rewrite blue_scaled_eq. apply Z.eqb_eq.
  apply (all_between_spec 1 40000
           (fun a => blue_scaled (S754_finite false 7349874591868649 (-60)) a
                     =? 255 * (maxalt - a) / maxalt));
  [by vm_compute | unfold maxalt in *; lia].
Qed.

(** At sea level the product [255/40000*40000] rounds to
    254.99999999999997, and [parseInt] drops the fraction. *)
Lemma blue_sea_level : blue 0 = 254.
Proof. by vm_compute. Qed.

Lemma blue_half_way : blue 20000 = 127.
Proof. by vm_compute. Qed.

Lemma blue_just_below_sea_level (altitude : Z) :
  -156 <= altitude < 0 -> blue altitude = 255.
Proof.
  intros Ha. rewrite blue_scaled_eq. apply Z.eqb_eq.
  apply (all_between_spec (-156) 156
           (fun a => blue_scaled (S754_finite false 7349874591868649 (-60)) a =? 255));
  [by vm_compute | lia].
Qed.

(** X10. For altitudes at and above sea level the blue channel is a
    valid colour component that never increases with the altitude: it
    starts at 254, and is 0 from the ceiling on. *)
Theorem blue_antitone (low high : Z) :
  0 <= low <= high -> 0 <= blue high <= blue low /\ blue low <= 254.
Proof.
  intros Hr.
  assert (forall a, 0 <= a ->
            blue a = if a =? 0 then 254
                     else if a <=? maxalt then 255 * (maxalt - a) / maxalt
                     else 0) as Hb.
  { intros a Ha. destruct (Z.eqb_spec a 0) as [->|Hne]; [apply blue_sea_level|].
    destruct (Z.leb_spec a maxalt).
    - apply blue_interpolates. lia.
    - apply blue_ceiling. lia. }
  rewrite (Hb low), (Hb high) by lia. unfold maxalt.
  destruct (Z.eqb_spec low 0); destruct (Z.eqb_spec high 0);
    destruct (Z.leb_spec low 40000); destruct (Z.leb_spec high 40000);
    try lia.
  - pose proof (Z.div_pos (255 * (40000 - high)) 40000).
    assert (255 * (40000 - high) / 40000 < 255)
      by (apply Z.div_lt_upper_bound; lia).
    lia.
  - pose proof (Z.div_pos (255 * (40000 - high)) 40000).
    assert (255 * (40000 - low) / 40000 < 255)
      by (apply Z.div_lt_upper_bound; lia).
    assert (255 * (40000 - high) / 40000 <= 255 * (40000 - low) / 40000)
      by (apply Z.div_le_mono; lia).
    lia.
  - pose proof (Z.div_pos (255 * (40000 - low)) 40000).
    assert (255 * (40000 - low) / 40000 < 255)
      by (apply Z.div_lt_upper_bound; lia).
    lia.
Qed.

End Blue.

(** ** Properties *)

Section Properties.

Context {number : Type} `{!NumberToString number}.

Implicit Types (st : State number) (a : Json.aircraft number)
  (data : list (Json.aircraft number)) (p q : Plane number)
  (m : Marker number) (k : string) (sh : gset string).

(** *** Frame facts *)

(** [refreshSelectedInfo] writes the detail panel and nothing else. *)
Lemma refreshSelectedInfo_Planes st :
  Planes (refreshSelectedInfo st) = Planes st.
Proof.
  unfold refreshSelectedInfo.
  by destruct (Planes st !! prop_key (Selected st)).
Qed.

Lemma refreshSelectedInfo_markers st :
  markers (refreshSelectedInfo st) = markers st.
Proof.
  unfold refreshSelectedInfo.
  by destruct (Planes st !! prop_key (Selected st)).
Qed.

Lemma refreshSelectedInfo_Selected st :
  Selected (refreshSelectedInfo st) = Selected st.
Proof.
  unfold refreshSelectedInfo.
  by destruct (Planes st !! prop_key (Selected st)).
Qed.

Lemma on_marker_Planes h f st : Planes (on_marker h f st) = Planes st.
Proof. by destruct h. Qed.

Lemma on_marker_Selected h f st : Selected (on_marker h f st) = Selected st.
Proof. by destruct h. Qed.

Lemma on_marker_selinfo h f st : selinfo (on_marker h f st) = selinfo st.
Proof. by destruct h. Qed.

Lemma on_marker_length h f st :
  length (markers (on_marker h f st)) = length (markers st).
Proof. destruct h; simpl; [apply length_alter | done]. Qed.

(** Rewriting away the operations that leave a component untouched. *)
Ltac frame :=
  repeat first
    [ rewrite refreshSelectedInfo_Planes
    | rewrite refreshSelectedInfo_markers
    | rewrite refreshSelectedInfo_Selected
    | rewrite on_marker_Planes
    | rewrite on_marker_Selected
    | rewrite on_marker_selinfo
    | progress simpl ].

(** The icon depends on the identity, the altitude and the track only. *)
Lemma getIconForPlane_ext sel p q :
  icao p = icao q -> altitude p = altitude q -> track p = track q ->
  getIconForPlane sel p = getIconForPlane sel q.
Proof. unfold getIconForPlane. by intros -> -> ->. Qed.

Lemma alter_fixed (f : Marker number -> Marker number) h (ms : list (Marker number)) m :
  ms !! h = Some m -> f m = m -> alter f h ms = ms.
Proof.
  intros Hm Hf. apply list_eq. intros j.
  destruct (decide (h = j)) as [<-|Hne].
  - by rewrite list_lookup_alter_eq, Hm; simpl; rewrite Hf.
  - by rewrite list_lookup_alter_ne.
Qed.

(** *** The loop over the snapshot *)

Lemma fetch_one_stillhere st sh a :
  (fetch_one (st, sh) a).2 = {[ Json.icao a ]} ∪ sh.
Proof.
  unfold fetch_one; simpl.
  by destruct (Planes st !! Json.icao a).
Qed.

Lemma fetch_one_Selected st sh a :
  Selected (fetch_one (st, sh) a).1 = Selected st.
Proof.
  unfold fetch_one; simpl.
  destruct (Planes st !! Json.icao a) as [q|]; [|done].
  frame. case_bool_decide; by frame.
Qed.

(** The registry after one iteration: the entry of the processed
    identity is updated in place or created, the others are untouched. *)
Lemma fetch_one_Planes st sh a :
  Planes (fetch_one (st, sh) a).1 =
    <[ Json.icao a :=
         match Planes st !! Json.icao a with
         | Some q => update_plane q (trimmed a)
         | None => set_marker (length (markers st)) (trimmed a)
         end ]> (Planes st).
Proof.
  unfold fetch_one; simpl.
  destruct (Planes st !! Json.icao a) as [q|]; [|done].
  frame. case_bool_decide; by frame.
Qed.

(** The marker heap after an iteration that finds the identity in the
    registry: three method calls on the entry's marker. *)
Lemma fetch_one_markers_update st sh a q h :
  Planes st !! Json.icao a = Some q -> marker q = Some h ->
  markers (fetch_one (st, sh) a).1 =
    alter (setTitle (title_text (trimmed a))) h
      (alter (setIcon (getIconForPlane (Selected st) (trimmed a))) h
         (alter (setPosition (Json.latitude a, Json.longitude a)) h (markers st))).
Proof.
  intros Hq Hh. unfold fetch_one; simpl. rewrite Hq, Hh.
  frame. case_bool_decide; by frame.
Qed.

Lemma fetch_one_markers_create st sh a :
  Planes st !! Json.icao a = None ->
  markers (fetch_one (st, sh) a).1 = markers st ++ [new_marker (Selected st) a].
Proof.
  intros Hq. unfold fetch_one; simpl. rewrite Hq. simpl.
  rewrite !alter_app_r_alt by lia.
  by rewrite Nat.sub_diag.
Qed.

Lemma fetch_one_length st sh a :
  (length (markers st) <= length (markers (fetch_one (st, sh) a).1))%nat.
Proof.
  destruct (Planes st !! Json.icao a) as [q|] eqn:Hq.
  - destruct (marker q) as [h|] eqn:Hh.
    + rewrite (fetch_one_markers_update _ _ _ _ _ Hq Hh), !length_alter. lia.
    + unfold fetch_one; simpl. rewrite Hq, Hh.
      frame. case_bool_decide; frame; lia.
  - rewrite (fetch_one_markers_create _ _ _ Hq), length_app. lia.
Qed.

(** The invariant [wf] survives an iteration. *)
Lemma fetch_one_wf st sh a : wf st -> wf (fetch_one (st, sh) a).1.
Proof.
  intros Hwf k p. rewrite fetch_one_Planes, fetch_one_Selected.
  destruct (Planes st !! Json.icao a) as [q|] eqn:Hq.
  - destruct (Hwf _ _ Hq) as (Hi & h & m & Hh & Hm & Hx & Hon & Hic).
    rewrite (fetch_one_markers_update _ _ _ _ _ Hq Hh).
    destruct (decide (Json.icao a = k)) as [<-|Hne].
    + rewrite lookup_insert_eq. intros [= <-]. split; [done|].
      eexists h, _. split; [done|]. split.
      { rewrite !list_lookup_alter_eq, Hm. reflexivity. }
      simpl. repeat split; try done.
      apply getIconForPlane_ext; simpl; done.
    + rewrite lookup_insert_ne by done. intros Hp.
      destruct (Hwf _ _ Hp) as (Hi' & h' & m' & Hh' & Hm' & Hx' & Hon' & Hic').
      split; [done|]. exists h', m'. split; [done|].
      assert (h <> h') by (intros ->; congruence).
      by rewrite !list_lookup_alter_ne.
  - rewrite (fetch_one_markers_create _ _ _ Hq).
    destruct (decide (Json.icao a = k)) as [<-|Hne].
    + rewrite lookup_insert_eq. intros [= <-]. split; [done|].
      eexists _, _. split; [done|]. split.
      { rewrite lookup_app_r by done. by rewrite Nat.sub_diag. }
      done.
    + rewrite lookup_insert_ne by done. intros Hp.
      destruct (Hwf _ _ Hp) as (Hi' & h' & m' & Hh' & Hm' & Hx' & Hon' & Hic').
      split; [done|]. exists h', m'. split; [done|].
      by rewrite (lookup_app_l_Some _ _ _ _ Hm').
Qed.

(** The whole loop over [data.aircrafts]. *)
Lemma fetch_loop_snoc st sh data a :
  foldl fetch_one (st, sh) (data ++ [a]) =
    fetch_one ((foldl fetch_one (st, sh) data).1, (foldl fetch_one (st, sh) data).2) a.
Proof. rewrite foldl_snoc. by destruct (foldl fetch_one (st, sh) data). Qed.

Lemma fetch_loop_stillhere st sh data :
  (foldl fetch_one (st, sh) data).2 = ids data ∪ sh.
Proof.
  induction data as [|a data IH] using rev_ind.
  - unfold ids. simpl. set_solver.
  - rewrite fetch_loop_snoc, fetch_one_stillhere, IH.
    unfold ids. rewrite fmap_app, list_to_set_app_L. simpl. set_solver.
Qed.

Lemma fetch_loop_Selected st sh data :
  Selected (foldl fetch_one (st, sh) data).1 = Selected st.
Proof.
  induction data as [|a data IH] using rev_ind; [done|].
  by rewrite fetch_loop_snoc, fetch_one_Selected.
Qed.

Lemma fetch_loop_wf st sh data :
  wf st -> wf (foldl fetch_one (st, sh) data).1.
Proof.
  intros Hwf. induction data as [|a data IH] using rev_ind; [done|].
  rewrite fetch_loop_snoc. by apply fetch_one_wf.
Qed.

Lemma fetch_loop_length st sh data :
  (length (markers st) <= length (markers (foldl fetch_one (st, sh) data).1))%nat.
Proof.
  induction data as [|a data IH] using rev_ind; [done|].
  rewrite fetch_loop_snoc. etrans; [exact IH | apply fetch_one_length].
Qed.

Lemma ids_snoc data a : ids (data ++ [a]) = ids data ∪ {[ Json.icao a ]}.
Proof. unfold ids. by rewrite fmap_app, list_to_set_app_L; simpl; rewrite union_empty_r_L. Qed.

(** An identity that the snapshot does not mention keeps its entry. *)
Lemma fetch_loop_other st sh data k :
  k ∉ ids data -> Planes (foldl fetch_one (st, sh) data).1 !! k = Planes st !! k.
Proof.
  induction data as [|a data IH] using rev_ind; [done|].
  rewrite ids_snoc, fetch_loop_snoc, fetch_one_Planes. intros Hk.
  rewrite lookup_insert_ne by set_solver. apply IH. set_solver.
Qed.

(** The loop never deletes: the keys after it are the old keys and the
    identities of the snapshot. *)
Lemma fetch_loop_dom st sh data :
  dom (Planes (foldl fetch_one (st, sh) data).1) = ids data ∪ dom (Planes st).
Proof.
  induction data as [|a data IH] using rev_ind.
  - unfold ids. simpl. set_solver.
  - rewrite ids_snoc, fetch_loop_snoc, fetch_one_Planes, dom_insert_L, IH.
    set_solver.
Qed.

Lemma last_with_snoc k data a :
  last_with k (data ++ [a]) =
    if decide (Json.icao a = k) then Some a else last_with k data.
Proof.
  unfold last_with. rewrite filter_app.
  destruct (decide (Json.icao a = k)) as [Hk|Hk].
  - rewrite filter_cons_True by done. simpl. apply last_snoc.
  - rewrite filter_cons_False by done. simpl. by rewrite app_nil_r.
Qed.

Lemma last_with_icao k data a : last_with k data = Some a -> Json.icao a = k.
Proof.
  unfold last_with. intros [l Hl]%last_Some.
  assert (a ∈ filter (fun a => Json.icao a = k) data) as Ha
    by (rewrite Hl; set_solver).
  by apply list_elem_of_filter in Ha as [? _].
Qed.

Lemma last_with_is_Some k data : k ∈ ids data <-> is_Some (last_with k data).
Proof.
  induction data as [|a data IH] using rev_ind.
  - unfold ids, last_with. simpl. split; [set_solver | by intros [? ?]].
  - rewrite ids_snoc, last_with_snoc. case_decide; [set_solver|].
    rewrite <- IH. set_solver.
Qed.

(** An identity that was in the registry before the loop and occurs in
    the snapshot ends with the fields of its last occurrence. *)
Lemma fetch_loop_last st sh data k a :
  is_Some (Planes st !! k) -> last_with k data = Some a ->
  exists q, Planes (foldl fetch_one (st, sh) data).1 !! k
            = Some (update_plane q (trimmed a)).
Proof.
  intros Hk. revert a.
  induction data as [|b data IH] using rev_ind; [done|].
  intros a. rewrite last_with_snoc, fetch_loop_snoc, fetch_one_Planes.
  case_decide as Hb.
  - intros [= <-]. subst k. rewrite lookup_insert_eq.
    assert (is_Some (Planes (foldl fetch_one (st, sh) data).1 !! Json.icao b))
      as [q Hq].
    { apply elem_of_dom. rewrite fetch_loop_dom. apply elem_of_dom in Hk. set_solver. }
    rewrite Hq. by exists q.
  - rewrite lookup_insert_ne by done. apply IH.
Qed.

(** *** Markers reached from the registry *)

Lemma marker_of_Some st k p h m :
  Planes st !! k = Some p -> marker p = Some h -> markers st !! h = Some m ->
  marker_of st k = Some m.
Proof. unfold marker_of. by intros -> -> ->. Qed.

Lemma wf_marker_of st k p :
  wf st -> Planes st !! k = Some p ->
  exists h m, marker p = Some h /\ markers st !! h = Some m /\
    marker_of st k = Some m /\ planehex m = Some k /\ onmap m = true /\
    icon m = getIconForPlane (Selected st) p.
Proof.
  intros Hwf Hp. destruct (Hwf _ _ Hp) as (_ & h & m & Hh & Hm & ? & ? & ?).
  exists h, m. repeat split; try done. by eapply marker_of_Some.
Qed.

(** Two registry entries never share a marker. *)
Lemma wf_marker_inj st k1 k2 p1 p2 h :
  wf st -> Planes st !! k1 = Some p1 -> Planes st !! k2 = Some p2 ->
  marker p1 = Some h -> marker p2 = Some h -> k1 = k2.
Proof.
  intros Hwf H1 H2 Hh1 Hh2.
  destruct (Hwf _ _ H1) as (_ & h1 & m1 & ? & ? & ? & _).
  destruct (Hwf _ _ H2) as (_ & h2 & m2 & ? & ? & ? & _).
  congruence.
Qed.

(** An iteration leaves the markers of the other identities alone. *)
Lemma fetch_one_marker_of_other st sh a k :
  wf st -> Json.icao a <> k ->
  marker_of (fetch_one (st, sh) a).1 k = marker_of st k.
Proof.
  intros Hwf Hne. unfold marker_of.
  rewrite fetch_one_Planes, lookup_insert_ne by done.
  destruct (Planes st !! k) as [p|] eqn:Hp; [|done].
  destruct (Hwf _ _ Hp) as (_ & h & m & Hh & Hm & Hx & _). rewrite Hh.
  destruct (Planes st !! Json.icao a) as [q|] eqn:Hq.
  - destruct (Hwf _ _ Hq) as (_ & h' & m' & Hh' & Hm' & Hx' & _).
    rewrite (fetch_one_markers_update _ _ _ _ _ Hq Hh').
    assert (h' <> h) by (intros ->; congruence).
    by rewrite !list_lookup_alter_ne.
  - rewrite (fetch_one_markers_create _ _ _ Hq).
    by rewrite (lookup_app_l_Some _ _ _ _ Hm).
Qed.

(** After an iteration the marker of the processed identity is on the
    map at the snapshot position, with the snapshot icon and title. *)
Lemma fetch_one_marker_of st sh a :
  wf st ->
  exists m, marker_of (fetch_one (st, sh) a).1 (Json.icao a) = Some m /\
    position m = (Json.latitude a, Json.longitude a) /\
    icon m = getIconForPlane (Selected st) (trimmed a) /\
    title m = Some (title_text (trimmed a)) /\
    onmap m = true.
Proof.
  intros Hwf. unfold marker_of.
  rewrite fetch_one_Planes, lookup_insert_eq.
  destruct (Planes st !! Json.icao a) as [q|] eqn:Hq.
  - destruct (Hwf _ _ Hq) as (_ & h & m & Hh & Hm & Hx & Hon & _).
    rewrite (fetch_one_markers_update _ _ _ _ _ Hq Hh). simpl. rewrite Hh.
    rewrite !list_lookup_alter_eq, Hm. simpl. eexists. split; [done|]. done.
  - rewrite (fetch_one_markers_create _ _ _ Hq). simpl.
    rewrite lookup_app_r by done. rewrite Nat.sub_diag. simpl.
    eexists. split; [done|]. done.
Qed.

Lemma fetch_loop_marker_of st sh data k a :
  wf st -> last_with k data = Some a ->
  exists m, marker_of (foldl fetch_one (st, sh) data).1 k = Some m /\
    position m = (Json.latitude a, Json.longitude a) /\
    icon m = getIconForPlane (Selected st) (trimmed a) /\
    title m = Some (title_text (trimmed a)) /\
    onmap m = true.
Proof.
  intros Hwf. revert a.
  induction data as [|b data IH] using rev_ind; [done|].
  intros a. rewrite last_with_snoc, fetch_loop_snoc.
  pose proof (fetch_loop_wf st sh data Hwf) as Hwf'.
  case_decide as Hb.
  - intros [= <-]. subst k.
    destruct (fetch_one_marker_of _ (foldl fetch_one (st, sh) data).2 b Hwf')
      as (m & Hm & ?).
    rewrite fetch_loop_Selected in *. by exists m.
  - intros Ha. rewrite fetch_one_marker_of_other by done. by apply IH.
Qed.

(** *** The loop that removes idle planes *)

Lemma remove_idle_Planes sh st k :
  Planes (remove_idle sh st k) =
    if bool_decide (k ∈ sh) then Planes st else delete k (Planes st).
Proof.
  unfold remove_idle. case_bool_decide; [done|].
  destruct (Planes st !! k) as [e|] eqn:He; simpl.
  - by rewrite on_marker_Planes.
  - by rewrite delete_id.
Qed.

Lemma remove_idle_Selected sh st k :
  Selected (remove_idle sh st k) = Selected st.
Proof.
  unfold remove_idle. case_bool_decide; [done|].
  destruct (Planes st !! k); [|done]. simpl. by rewrite on_marker_Selected.
Qed.

Lemma remove_idle_length sh st k :
  length (markers (remove_idle sh st k)) = length (markers st).
Proof.
  unfold remove_idle. case_bool_decide; [done|].
  destruct (Planes st !! k); [|done]. simpl. by rewrite on_marker_length.
Qed.

Lemma remove_idle_offmap sh st k h : offmap st h -> offmap (remove_idle sh st k) h.
Proof.
  intros (m & Hm & Hoff). unfold remove_idle, offmap. case_bool_decide; [eauto|].
  destruct (Planes st !! k) as [e|]; [|eauto]. simpl.
  destruct (marker e) as [h'|]; simpl; [|eauto].
  destruct (decide (h' = h)) as [->|Hne].
  - rewrite list_lookup_alter_eq, Hm. simpl. eauto.
  - rewrite list_lookup_alter_ne by done. eauto.
Qed.

Lemma remove_idle_wf sh st k : wf st -> wf (remove_idle sh st k).
Proof.
  intros Hwf k' p'. rewrite remove_idle_Selected.
  unfold remove_idle. case_bool_decide; [apply Hwf|].
  destruct (Planes st !! k) as [e|] eqn:He; [|apply Hwf]. simpl.
  rewrite on_marker_Planes. intros [Hne Hp']%lookup_delete_Some.
  destruct (Hwf _ _ Hp') as (Hi' & h' & m' & Hh' & Hm' & Hx' & Hon' & Hic').
  split; [done|]. exists h', m'. split; [done|].
  destruct (Hwf _ _ He) as (_ & h & m & Hh & Hm & Hx & _). rewrite Hh. simpl.
  assert (h <> h') by (intros ->; congruence).
  by rewrite list_lookup_alter_ne.
Qed.

Lemma remove_idle_marker_of sh st k k' :
  wf st -> k' ∈ sh -> marker_of (remove_idle sh st k) k' = marker_of st k'.
Proof.
  intros Hwf Hk'. unfold remove_idle. case_bool_decide as Hk; [done|].
  destruct (Planes st !! k) as [e|] eqn:He; [|done].
  assert (k <> k') by (intros ->; done).
  unfold marker_of. simpl. rewrite on_marker_Planes, lookup_delete_ne by done.
  destruct (Planes st !! k') as [p'|] eqn:Hp'; [|done].
  destruct (Hwf _ _ Hp') as (_ & h' & m' & Hh' & Hm' & Hx' & _).
  destruct (Hwf _ _ He) as (_ & h & m & Hh & Hm & Hx & _). rewrite Hh, Hh'. simpl.
  assert (h <> h') by (intros ->; congruence).
  by rewrite list_lookup_alter_ne.
Qed.

Lemma remove_loop_Selected sh keys st :
  Selected (foldl (remove_idle sh) st keys) = Selected st.
Proof.
  revert st. induction keys as [|k keys IH]; intros st; [done|].
  simpl. by rewrite IH, remove_idle_Selected.
Qed.

Lemma remove_loop_wf sh keys st : wf st -> wf (foldl (remove_idle sh) st keys).
Proof.
  revert st. induction keys as [|k keys IH]; intros st Hwf; [done|].
  simpl. by apply IH, remove_idle_wf.
Qed.

Lemma remove_loop_offmap sh keys st h :
  offmap st h -> offmap (foldl (remove_idle sh) st keys) h.
Proof.
  revert st. induction keys as [|k keys IH]; intros st Hoff; [done|].
  simpl. by apply IH, remove_idle_offmap.
Qed.

Lemma remove_loop_marker_of sh keys st k' :
  wf st -> k' ∈ sh ->
  marker_of (foldl (remove_idle sh) st keys) k' = marker_of st k'.
Proof.
  revert st. induction keys as [|k keys IH]; intros st Hwf Hk'; [done|].
  simpl. rewrite IH by auto using remove_idle_wf.
  by apply remove_idle_marker_of.
Qed.

(** Entries of identities that are still here are kept... *)
Lemma remove_loop_kept sh keys st k :
  k ∈ sh -> Planes (foldl (remove_idle sh) st keys) !! k = Planes st !! k.
Proof.
  intros Hk. revert st. induction keys as [|k' keys IH]; intros st; [done|].
  simpl. rewrite IH, remove_idle_Planes. case_bool_decide; [done|].
  apply lookup_delete_ne. by intros ->.
Qed.

(** ... absent identities stay absent... *)
Lemma remove_loop_absent sh keys st k :
  Planes st !! k = None -> Planes (foldl (remove_idle sh) st keys) !! k = None.
Proof.
  revert st. induction keys as [|k' keys IH]; intros st Hk; [done|].
  simpl. apply IH. rewrite remove_idle_Planes. case_bool_decide; [done|].
  rewrite lookup_delete_None. by right.
Qed.

(** ... an enumerated key that is not still here loses its entry... *)
Lemma remove_loop_deleted sh keys st k :
  k ∈ keys -> k ∉ sh -> Planes (foldl (remove_idle sh) st keys) !! k = None.
Proof.
  intros Hin Hsh. revert st.
  induction keys as [|k' keys IH]; intros st; [by inversion Hin|].
  simpl. destruct (decide (k' = k)) as [->|Hne].
  - apply remove_loop_absent.
    rewrite remove_idle_Planes, bool_decide_eq_false_2 by done.
    apply lookup_delete_eq.
  - apply IH. apply elem_of_cons in Hin as [?|?]; [congruence | done].
Qed.

(** ... and its marker is taken off the map. *)
Lemma remove_loop_offmap_removed sh keys st k p h :
  k ∈ keys -> k ∉ sh -> Planes st !! k = Some p -> marker p = Some h ->
  (h < length (markers st))%nat ->
  offmap (foldl (remove_idle sh) st keys) h.
Proof.
  intros Hin Hsh. revert st.
  induction keys as [|k' keys IH]; intros st Hp Hh Hlen; [by inversion Hin|].
  simpl. destruct (decide (k' = k)) as [->|Hne].
  - apply remove_loop_offmap. unfold remove_idle, offmap.
    rewrite bool_decide_eq_false_2, Hp, Hh by done. simpl.
    destruct (lookup_lt_is_Some_2 _ _ Hlen) as [m Hm].
    exists (setMap false m). by rewrite list_lookup_alter_eq, Hm.
  - apply IH.
    + apply elem_of_cons in Hin as [?|?]; [congruence | done].
    + rewrite remove_idle_Planes. case_bool_decide; [done|].
      by rewrite lookup_delete_ne.
    + done.
    + by rewrite remove_idle_length.
Qed.

(** *** The reconciliation as a whole *)

Lemma fetchData_unfold data st :
  fetchData data st =
    foldl (remove_idle (ids data))
      (set_NumPlanes (length data) (foldl fetch_one (st, ∅) data).1)
      (map_to_list (Planes (foldl fetch_one (st, ∅) data).1)).*1.
Proof.
  unfold fetchData.
  pose proof (fetch_loop_stillhere st ∅ data) as Hsh.
  destruct (foldl fetch_one (st, ∅) data) as [st' sh']. simpl in *.
  rewrite Hsh. by rewrite union_empty_r_L.
Qed.

Lemma set_NumPlanes_wf n st : wf st -> wf (set_NumPlanes n st).
Proof. done. Qed.

Lemma fetchData_Selected data st : Selected (fetchData data st) = Selected st.
Proof.
  by rewrite fetchData_unfold, remove_loop_Selected; simpl;
    rewrite fetch_loop_Selected.
Qed.

Lemma fetchData_wf data st : wf st -> wf (fetchData data st).
Proof.
  intros Hwf. rewrite fetchData_unfold.
  by apply remove_loop_wf, set_NumPlanes_wf, fetch_loop_wf.
Qed.

Lemma keys_spec (M : gmap string (Plane number)) k :
  k ∈ (map_to_list M).*1 <-> is_Some (M !! k).
Proof.
  rewrite list_elem_of_fmap. split.
  - intros ([k' p] & -> & Hp%elem_of_map_to_list). by exists p.
  - intros [p Hp]. exists (k, p). split; [done|]. by apply elem_of_map_to_list.
Qed.

(** The registry after a reconciliation: the entries of the snapshot's
    identities as the first loop left them, and nothing else. *)
Lemma fetchData_lookup data st k :
  Planes (fetchData data st) !! k =
    if bool_decide (k ∈ ids data)
    then Planes (foldl fetch_one (st, ∅) data).1 !! k
    else None.
Proof.
  rewrite fetchData_unfold. case_bool_decide as Hk.
  - by rewrite remove_loop_kept.
  - destruct (Planes (foldl fetch_one (st, ∅) data).1 !! k) as [p|] eqn:Hp.
    + apply remove_loop_deleted; [|done]. apply keys_spec. by exists p.
    + by apply remove_loop_absent.
Qed.

Lemma fetchData_dom data st : dom (Planes (fetchData data st)) = ids data.
Proof.
  apply set_eq. intros k. rewrite elem_of_dom, fetchData_lookup.
  case_bool_decide as Hk.
  - rewrite <- elem_of_dom, fetch_loop_dom. set_solver.
  - split; [by intros [? ?] | done].
Qed.

(** *** Selection *)

Lemma selectPlane_absent st k : Planes st !! k = None -> selectPlane k st = st.
Proof. unfold selectPlane. by intros ->. Qed.

Lemma selectPlane_Planes st k : Planes (selectPlane k st) = Planes st.
Proof.
  unfold selectPlane. destruct (Planes st !! k) as [pk|] eqn:Hk; [|done].
  frame. destruct (Planes st !! prop_key (Selected st)); frame;
    rewrite Hk; by frame.
Qed.

Lemma selectPlane_Selected st k :
  is_Some (Planes st !! k) -> Selected (selectPlane k st) = Some k.
Proof.
  intros [pk Hk]. unfold selectPlane. rewrite Hk.
  frame. destruct (Planes st !! prop_key (Selected st)); frame;
    rewrite Hk; by frame.
Qed.

Lemma selectPlane_markers st k pk :
  Planes st !! k = Some pk ->
  markers (selectPlane k st) =
    markers (on_marker (marker pk) (setIcon (getIconForPlane (Some k) pk))
               (unhighlight k st)).
Proof.
  intros Hk. unfold selectPlane, unhighlight. rewrite Hk.
  frame. destruct (Planes st !! prop_key (Selected st)); frame;
    rewrite Hk; by frame.
Qed.

Lemma setIcon_same m : setIcon (icon m) m = m.
Proof. by destruct m. Qed.

(** Away from the old and the new selection the highlight is off before
    and after. *)
Lemma getIconForPlane_unselected st k p :
  icao p <> k -> icao p <> prop_key (Selected st) ->
  getIconForPlane (Selected st) p = getIconForPlane (Some k) p.
Proof.
  intros Hk Hold. unfold getIconForPlane.
  rewrite !bool_decide_eq_false_2; [done | congruence |].
  intros Hs. rewrite Hs in Hold. done.
Qed.

(** The marker of every registry entry after a selection: only the icon
    changes, and it is the icon for the new selection. *)
Lemma selectPlane_marker_of st k k' p' :
  wf st -> is_Some (Planes st !! k) -> Planes st !! k' = Some p' ->
  exists h m, marker p' = Some h /\ markers st !! h = Some m /\
    markers (selectPlane k st) !! h
      = Some (setIcon (getIconForPlane (Some k) p') m).
Proof.
  intros Hwf [pk Hk] Hp'.
  destruct (Hwf _ _ Hp') as (Hi' & h' & m' & Hh' & Hm' & Hx' & Hon' & Hic').
  destruct (Hwf _ _ Hk) as (Hi & h & m & Hh & Hm & Hx & Hon & Hic).
  exists h', m'. split; [done|]. split; [done|].
  rewrite (selectPlane_markers _ _ _ Hk), Hh. simpl.
  destruct (decide (k' = k)) as [->|Hne].
  { assert (h' = h) as -> by congruence. assert (p' = pk) as -> by congruence.
    rewrite list_lookup_alter_eq.
    unfold unhighlight.
    destruct (Planes st !! prop_key (Selected st)) as [po|] eqn:Hpo; simpl.
    - destruct (Hwf _ _ Hpo) as (_ & ho & mo & Hho & Hmo & Hxo & _).
      rewrite Hho. simpl. destruct (decide (ho = h)) as [->|Hneo].
      + by rewrite list_lookup_alter_eq, Hm'.
      + by rewrite list_lookup_alter_ne, Hm'.
    - by rewrite Hm'. }
  assert (h <> h') by (intros ->; congruence).
  rewrite list_lookup_alter_ne by done.
  unfold unhighlight.
  destruct (Planes st !! prop_key (Selected st)) as [po|] eqn:Hpo; simpl.
  - destruct (Hwf _ _ Hpo) as (Hio & ho & mo & Hho & Hmo & Hxo & _).
    rewrite Hho. simpl. destruct (decide (ho = h')) as [->|Hneo].
    + assert (k' = prop_key (Selected st)) by congruence. subst k'.
      assert (p' = po) as -> by congruence.
      by rewrite list_lookup_alter_eq, Hm'.
    + rewrite list_lookup_alter_ne, Hm' by done. f_equal.
      rewrite <- (setIcon_same m') at 1. rewrite Hic'. f_equal.
      apply getIconForPlane_unselected; [congruence|].
      intros Heq. apply Hneo. rewrite Hi' in Heq. subst k'. congruence.
  - rewrite Hm'. f_equal. rewrite <- (setIcon_same m') at 1. rewrite Hic'. f_equal.
    apply getIconForPlane_unselected; [congruence|].
    intros Heq. rewrite Hi' in Heq. subst k'. congruence.
Qed.

Lemma selectPlane_wf st k : wf st -> wf (selectPlane k st).
Proof.
  intros Hwf. destruct (Planes st !! k) as [pk|] eqn:Hk.
  2:{ by rewrite selectPlane_absent. }
  intros k' p'. rewrite selectPlane_Planes, selectPlane_Selected by eauto.
  intros Hp'.
  destruct (selectPlane_marker_of st k k' p' Hwf (mk_is_Some _ _ Hk) Hp')
    as (h & m & Hh & Hm & Hm').
  destruct (Hwf _ _ Hp') as (Hi' & h' & m' & Hh' & Hm'' & Hx' & Hon' & _).
  assert (h' = h) as -> by congruence. assert (m' = m) as -> by congruence.
  split; [done|]. exists h, (setIcon (getIconForPlane (Some k) p') m).
  done.
Qed.

Lemma click_wf st h : wf st -> wf (click h st).
Proof.
  intros Hwf. unfold click. destruct (markers st !! h) as [m|]; [|done].
  destruct (planehex m); [|done]. by apply selectPlane_wf.
Qed.

Lemma init_wf : wf (number := number) init.
Proof. intros k p Hp. simpl in Hp. by rewrite lookup_empty in Hp. Qed.

Lemma step_wf st (ev : event) : wf st -> wf (step st ev).
Proof.
  destruct ev; simpl;
    [apply fetchData_wf | apply click_wf | done].
Qed.

(** Every state the event loop reaches is well formed. *)
Lemma run_wf (evs : list event) : wf (number := number) (run evs).
Proof.
  unfold run. induction evs as [|ev evs IH] using rev_ind; [apply init_wf|].
  rewrite foldl_snoc. by apply step_wf.
Qed.

Lemma fetchData_marker_of data st k a :
  wf st -> last_with k data = Some a ->
  exists m, marker_of (fetchData data st) k = Some m /\
    position m = (Json.latitude a, Json.longitude a) /\
    icon m = getIconForPlane (Selected st) (trimmed a) /\
    title m = Some (title_text (trimmed a)) /\
    onmap m = true.
Proof.
  intros Hwf Ha. rewrite fetchData_unfold.
  rewrite remove_loop_marker_of.
  - by apply (fetch_loop_marker_of st ∅ data k a).
  - by apply set_NumPlanes_wf, fetch_loop_wf.
  - apply last_with_is_Some. by exists a.
Qed.

Lemma length_zero_empty (s : string) :
  Nat.eqb (String.length s) 0 = true <-> s = "".
Proof. destruct s; simpl; split; congruence. Qed.

(** *** The claims *)

(** C1. An identity present in two consecutive snapshots has, after the
    second reconciliation, exactly one registry entry, stored under the
    identity, whose position ([lat], [lon]), altitude, speed, track and
    callsign are those of the entry of the second snapshot that was
    processed last for the identity (the callsign whitespace-trimmed, as
    the loop trims the snapshot entry itself); its marker stands at that
    position. *)
Theorem fetchData_updates_existing st d1 d2 k a :
  wf st -> k ∈ ids d1 -> last_with k d2 = Some a ->
  exists p,
    Planes (fetchData d2 (fetchData d1 st)) !! k = Some p /\
    (forall k' p', Planes (fetchData d2 (fetchData d1 st)) !! k' = Some p' ->
                   icao p' = k -> k' = k) /\
    icao p = k /\
    lat p = Some (Json.latitude a) /\ lon p = Some (Json.longitude a) /\
    altitude p = Json.altitude a /\ speed p = Json.speed a /\
    track p = Json.track a /\ flight p = trim (Json.flight a) /\
    exists m, marker_of (fetchData d2 (fetchData d1 st)) k = Some m /\
      position m = (Json.latitude a, Json.longitude a) /\ onmap m = true.
Proof.
  intros Hwf Hk1 Ha.
  pose proof (fetchData_wf d1 st Hwf) as Hwf1.
  pose proof (fetchData_wf d2 _ Hwf1) as Hwf2.
  assert (is_Some (Planes (fetchData d1 st) !! k)) as Hin1.
  { apply elem_of_dom. by rewrite fetchData_dom. }
  assert (k ∈ ids d2) as Hk2 by (apply last_with_is_Some; by exists a).
  destruct (fetch_loop_last (fetchData d1 st) ∅ d2 k a Hin1 Ha) as [q Hq].
  exists (update_plane q (trimmed a)). split.
  { by rewrite fetchData_lookup, bool_decide_eq_true_2. }
  assert (Planes (fetchData d2 (fetchData d1 st)) !! k
          = Some (update_plane q (trimmed a))) as Hp
    by (by rewrite fetchData_lookup, bool_decide_eq_true_2).
  split.
  { intros k' p' Hp' Hi. destruct (Hwf2 _ _ Hp') as [Hi' _]. congruence. }
  split; [by destruct (Hwf2 _ _ Hp) as [Hi _]|].
  do 6 (split; [done|]).
  destruct (fetchData_marker_of d2 _ k a Hwf1 Ha) as (m & Hm & Hpos & _ & _ & Hon).
  by exists m.
Qed.

(** C2. An identity that is in the registry before a reconciliation and
    not among the identities of the snapshot is not in the registry
    afterwards, and the marker of its entry was taken off the map. *)
Theorem fetchData_removes_absent st data k p :
  wf st -> Planes st !! k = Some p -> k ∉ ids data ->
  Planes (fetchData data st) !! k = None /\
  exists h m, marker p = Some h /\
    markers (fetchData data st) !! h = Some m /\ onmap m = false.
Proof.
  intros Hwf Hp Hk. split.
  { by rewrite fetchData_lookup, bool_decide_eq_false_2. }
  destruct (Hwf _ _ Hp) as (_ & h & m & Hh & Hm & _).
  assert (offmap (fetchData data st) h) as (m' & Hm' & Hoff).
  { rewrite fetchData_unfold.
    apply (remove_loop_offmap_removed _ _ _ k p); try done.
    - apply keys_spec. rewrite fetch_loop_other by done. by exists p.
    - simpl. by rewrite fetch_loop_other.
    - simpl. eapply Nat.lt_le_trans; [|apply fetch_loop_length].
      by eapply lookup_lt_Some. }
  by exists h, m'.
Qed.

Lemma title_text_trimmed a :
  title_text (trimmed a) =
    if decide (trim (Json.flight a) = "") then Json.icao a
    else trim (Json.flight a) +:+ " (" +:+ Json.icao a +:+ ")".
Proof.
  unfold title_text, trimmed. simpl.
  destruct (Nat.eqb (String.length (trim (Json.flight a))) 0) eqn:He.
  - apply length_zero_empty in He. by rewrite decide_True.
  - rewrite decide_False; [done|]. intros He'%length_zero_empty. congruence.
Qed.

(** *** What [trim] removes *)

Lemma is_space_white (c : ascii) : is_space c = true <-> white c.
Proof.
  unfold is_space, white. generalize (nat_of_ascii c) as n. intros n.
  cbv zeta. cbn [In].
  rewrite orb_true_iff, andb_true_iff, Nat.eqb_eq, !Nat.leb_le. lia.
Qed.

Lemma is_space_not_white (c : ascii) : is_space c = false <-> ~ white c.
Proof. rewrite <- is_space_white. by destruct (is_space c). Qed.

Lemma whitespace_spec (s : string) :
  whitespace s <-> Forall (fun c => is_space c = true) (list_ascii_of_string s).
Proof.
  unfold whitespace.
  split; intros H; (eapply Forall_impl; [exact H|]); intros c; apply is_space_white.
Qed.

Lemma tight_spec (s : string) :
  tight s <->
  (forall c, head (list_ascii_of_string s) = Some c -> is_space c = false) /\
  (forall c, last (list_ascii_of_string s) = Some c -> is_space c = false).
Proof.
  unfold tight. split; intros [Hh Hl]; split; intros c Hc;
    apply is_space_not_white; auto.
Qed.

Lemma chars_app (s1 s2 : string) :
  list_ascii_of_string (s1 +:+ s2)
    = list_ascii_of_string s1 ++ list_ascii_of_string s2.
Proof.
  induction s1 as [|c s1 IH]; [done|].
  change (c :: list_ascii_of_string (s1 +:+ s2)
          = c :: (list_ascii_of_string s1 ++ list_ascii_of_string s2)).
  by rewrite IH.
Qed.

Lemma string_of_chars_app (l1 l2 : list ascii) :
  string_of_list_ascii (l1 ++ l2)
    = string_of_list_ascii l1 +:+ string_of_list_ascii l2.
Proof.
  induction l1 as [|c l1 IH]; [done|].
  change (String c (string_of_list_ascii (l1 ++ l2))
          = String c (string_of_list_ascii l1 +:+ string_of_list_ascii l2)).
  by rewrite IH.
Qed.

Lemma ltrim_app_blank (w l : list ascii) :
  Forall (fun c => is_space c = true) w -> ltrim (w ++ l) = ltrim l.
Proof. induction 1 as [|c w Hc _ IH]; simpl; [done | by rewrite Hc]. Qed.

Lemma ltrim_tight (l : list ascii) :
  (forall c, head l = Some c -> is_space c = false) -> ltrim l = l.
Proof. destruct l as [|c l]; [done|]. intros H. simpl. by rewrite (H c). Qed.

Lemma head_rev (l : list ascii) : head (rev l) = last l.
Proof.
  induction l as [|c l _] using rev_ind; [done|].
  by rewrite rev_app_distr, last_snoc.
Qed.

(** [ltrim] drops a blank prefix and stops at the first character that is
    not whitespace. *)
Lemma ltrim_split (l : list ascii) :
  exists w, Forall (fun c => is_space c = true) w /\ l = w ++ ltrim l /\
    forall c, head (ltrim l) = Some c -> is_space c = false.
Proof.
  induction l as [|c l (w & Hw & Hl & Hh)]; [by exists []|].
  simpl. destruct (is_space c) eqn:Hc.
  - exists (c :: w). split; [by constructor|]. split; [by rewrite Hl at 1 | done].
  - exists []. split; [constructor|]. split; [done|]. by intros ? [= <-].
Qed.

(** [trim] strips whitespace, and only whitespace, from both ends: of a
    blank prefix, a tight core and a blank suffix it returns the core. *)
Lemma trim_core (ws1 core ws2 : string) :
  whitespace ws1 -> whitespace ws2 -> tight core ->
  trim (ws1 +:+ core +:+ ws2) = core.
Proof.
  intros H1%whitespace_spec H2%whitespace_spec [Hh Hl]%tight_spec. unfold trim.
  rewrite !chars_app, (ltrim_app_blank _ _ H1).
  destruct (list_ascii_of_string core) as [|c l] eqn:Hc.
  - simpl.
    assert (ltrim (list_ascii_of_string ws2) = []) as ->.
    { rewrite <- (app_nil_r (list_ascii_of_string ws2)).
      by rewrite (ltrim_app_blank _ [] H2). }
    simpl. by rewrite <- (string_of_list_ascii_of_string core), Hc.
  - assert (ltrim ((c :: l) ++ list_ascii_of_string ws2)
            = (c :: l) ++ list_ascii_of_string ws2) as ->.
    { apply ltrim_tight. intros x Hx. apply Hh. exact Hx. }
    rewrite rev_app_distr, ltrim_app_blank by (by apply Forall_rev).
    rewrite ltrim_tight by (intros x; rewrite head_rev; apply Hl).
    by rewrite rev_involutive, <- Hc, string_of_list_ascii_of_string.
Qed.

(** Every string is such a prefix, core and suffix, the core being what
    [trim] returns. *)
Lemma trim_decomposition (s : string) :
  exists ws1 ws2,
    s = ws1 +:+ trim s +:+ ws2 /\
    whitespace ws1 /\ whitespace ws2 /\ tight (trim s).
Proof.
  setoid_rewrite whitespace_spec. setoid_rewrite tight_spec. unfold trim.
  destruct (ltrim_split (list_ascii_of_string s)) as (w1 & Hw1 & Hs & Hh1).
  set (l1 := ltrim (list_ascii_of_string s)) in *.
  destruct (ltrim_split (rev l1)) as (w2 & Hw2 & Hr & Hh2).
  set (l2 := ltrim (rev l1)) in *.
  assert (l1 = rev l2 ++ rev w2) as Hl1
    by (by rewrite <- rev_app_distr, <- Hr, rev_involutive).
  exists (string_of_list_ascii w1), (string_of_list_ascii (rev w2)).
  rewrite !list_ascii_of_string_of_list_ascii.
  split; [|split; [done|split; [by apply Forall_rev|split]]].
  - rewrite <- !string_of_chars_app, <- Hl1, <- Hs.
    by rewrite string_of_list_ascii_of_string.
  - intros c Hc. apply Hh1. rewrite Hl1.
    by destruct (rev l2).
  - intros c Hc. apply Hh2. by rewrite <- head_rev, rev_involutive in Hc.
Qed.

(** C7. Write the ASCII callsign of a snapshot entity as whitespace, a
    core that neither starts nor ends with whitespace, and whitespace
    (whitespace by character code: 9 to 13 and 32; every callsign is of
    this form, [trim_decomposition]), so that the core is the
    whitespace-trimmed callsign.  At the end of the entity's loop
    iteration its marker is titled with the identity when the core is
    empty, otherwise with the core, a space and the identity in
    parentheses; after the reconciliation the marker of every identity of
    the snapshot carries the title of the entry processed last for it;
    the callsign ["UAL123 "] gives ["UAL123 (identity)"]. *)
Theorem fetchData_title st data k a (ws1 core ws2 : string) :
  wf st -> last_with k data = Some a ->
  Json.flight a = ws1 +:+ core +:+ ws2 ->
  whitespace ws1 -> whitespace ws2 -> tight core ->
  ascii_only (Json.flight a) ->
  (forall pre b post (w1 c w2 : string), data = pre ++ b :: post ->
     Json.flight b = w1 +:+ c +:+ w2 ->
     whitespace w1 -> whitespace w2 -> tight c -> ascii_only (Json.flight b) ->
     exists m,
       marker_of (foldl fetch_one (st, ∅) (pre ++ [b])).1 (Json.icao b) = Some m /\
       title m = Some (if decide (c = "") then Json.icao b
                       else c +:+ " (" +:+ Json.icao b +:+ ")")) /\
  exists m, marker_of (fetchData data st) k = Some m /\
    title m = Some (if decide (core = "") then Json.icao a
                    else core +:+ " (" +:+ Json.icao a +:+ ")") /\
    (Json.flight a = "UAL123 " ->
     title m = Some ("UAL123 (" +:+ Json.icao a +:+ ")")).
Proof.
  intros Hwf Ha Hfl Hb1 Hb2 Ht _. split.
  { intros pre b post w1 c w2 _ Hflb Hw1 Hw2 Hc _. rewrite fetch_loop_snoc.
    destruct (fetch_one_marker_of (foldl fetch_one (st, ∅) pre).1
                (foldl fetch_one (st, ∅) pre).2 b (fetch_loop_wf st ∅ pre Hwf))
      as (m & Hm & _ & _ & Htt & _).
    exists m. split; [done|].
    by rewrite Htt, title_text_trimmed, Hflb, (trim_core w1 c w2). }
  destruct (fetchData_marker_of data st k a Hwf Ha) as (m & Hm & _ & _ & Htt & _).
  exists m. split; [done|]. rewrite title_text_trimmed in Htt.
  split.
  - by rewrite Htt, Hfl, (trim_core ws1 core ws2).
  - intros Hf. rewrite Htt, Hf. reflexivity.
Qed.

(** In a well-formed state the stroke weight of every registry marker
    tells whether its identity is the selected one. *)
Lemma wf_strokeWeight st k p :
  wf st -> Planes st !! k = Some p ->
  exists m, marker_of st k = Some m /\
    strokeWeight (icon m) = if bool_decide (Selected st = Some k) then 2 else 1.
Proof.
  intros Hwf Hp. destruct (Hwf _ _ Hp) as [Hi _].
  destruct (wf_marker_of st k p Hwf Hp) as (h & m & _ & _ & Hm & _ & _ & Hic).
  exists m. split; [done|]. rewrite Hic. simpl. by rewrite Hi.
Qed.

(** After a click on a registered identity it is the selection, and the
    registry markers with stroke weight 2 are exactly its marker. *)
Lemma selectPlane_highlight st k :
  wf st -> is_Some (Planes st !! k) ->
  Selected (selectPlane k st) = Some k /\
  forall k' p', Planes (selectPlane k st) !! k' = Some p' ->
    exists m, marker_of (selectPlane k st) k' = Some m /\
      strokeWeight (icon m) = if bool_decide (k' = k) then 2 else 1.
Proof.
  intros Hwf Hk.
  pose proof (selectPlane_Selected st k Hk) as Hsel.
  split; [done|]. intros k' p' Hp'.
  destruct (wf_strokeWeight _ k' p' (selectPlane_wf st k Hwf) Hp') as (m & Hm & Hw).
  exists m. split; [done|]. rewrite Hw, Hsel.
  destruct (decide (k' = k)) as [->|Hne].
  - by rewrite !bool_decide_eq_true_2.
  - rewrite !bool_decide_eq_false_2; congruence.
Qed.

(** C4. Selecting [A] and then a different [B], both in the registry:
    after the first click [A] is the selection and no other registry
    marker is highlighted; after the second [B] is the selection, the
    marker of [A] has stroke weight 1, the marker of [B] has stroke
    weight 2, and every other registry marker has stroke weight 1.  The
    selection is a single optional identity throughout. *)
Theorem selectPlane_twice st A B :
  wf st -> is_Some (Planes st !! A) -> is_Some (Planes st !! B) -> A <> B ->
  Selected (selectPlane A st) = Some A /\
  (forall k p, Planes (selectPlane A st) !! k = Some p -> k <> A ->
     exists m, marker_of (selectPlane A st) k = Some m /\
               strokeWeight (icon m) = 1) /\
  Selected (selectPlane B (selectPlane A st)) = Some B /\
  (exists mA, marker_of (selectPlane B (selectPlane A st)) A = Some mA /\
              strokeWeight (icon mA) = 1) /\
  (exists mB, marker_of (selectPlane B (selectPlane A st)) B = Some mB /\
              strokeWeight (icon mB) = 2) /\
  (forall k p, Planes (selectPlane B (selectPlane A st)) !! k = Some p ->
     k <> B ->
     exists m, marker_of (selectPlane B (selectPlane A st)) k = Some m /\
               strokeWeight (icon m) = 1).
Proof.
  intros Hwf HA HB Hne.
  assert (is_Some (Planes (selectPlane A st) !! B)) as HB'
    by (by rewrite selectPlane_Planes).
  destruct (selectPlane_highlight st A Hwf HA) as [HselA HallA].
  destruct (selectPlane_highlight _ B (selectPlane_wf st A Hwf) HB')
    as [HselB HallB].
  split; [done|]. split.
  { intros k p Hp Hk. destruct (HallA k p Hp) as (m & Hm & Hw).
    exists m. by rewrite Hw, bool_decide_eq_false_2. }
  split; [done|].
  destruct HA as [pa HA]. destruct HB as [pb HB].
  repeat split.
  - destruct (HallB A pa) as (m & Hm & Hw); [by rewrite !selectPlane_Planes|].
    exists m. by rewrite Hw, bool_decide_eq_false_2.
  - destruct (HallB B pb) as (m & Hm & Hw); [by rewrite !selectPlane_Planes|].
    exists m. by rewrite Hw, bool_decide_eq_true_2.
  - intros k p Hp Hk. destruct (HallB k p Hp) as (m & Hm & Hw).
    exists m. by rewrite Hw, bool_decide_eq_false_2.
Qed.

(** C8. The click handler run for an identity that is not in the
    registry returns the state as it was: selection, registry, markers
    and panels; so does a click on a marker whose identity is no longer
    registered. *)
Theorem selectPlane_unknown st k :
  Planes st !! k = None ->
  selectPlane k st = st /\
  (forall h m, markers st !! h = Some m -> planehex m = Some k -> click h st = st).
Proof.
  intros Hk. split; [by apply selectPlane_absent|].
  intros h m Hm Hx. unfold click. rewrite Hm, Hx. by apply selectPlane_absent.
Qed.

(** C10. Selecting the identity that is already selected, and is in the
    registry, leaves the selection, the registry and every marker
    (hence every icon) as they were. *)
Theorem selectPlane_same st k :
  wf st -> Selected st = Some k -> is_Some (Planes st !! k) ->
  Selected (selectPlane k st) = Selected st /\
  Planes (selectPlane k st) = Planes st /\
  markers (selectPlane k st) = markers st.
Proof.
  intros Hwf Hsel [pk Hk]. split.
  { rewrite Hsel. apply selectPlane_Selected. by exists pk. }
  split; [apply selectPlane_Planes|].
  destruct (Hwf _ _ Hk) as (_ & h & m & Hh & Hm & _ & _ & Hic).
  rewrite (selectPlane_markers _ _ _ Hk). unfold unhighlight.
  rewrite Hsel. simpl. rewrite Hk, Hh. simpl.
  assert (setIcon (getIconForPlane (Some k) pk) m = m) as Hfix.
  { rewrite <- Hsel, <- Hic. apply setIcon_same. }
  by rewrite !(alter_fixed _ h (markers st) m Hm Hfix).
Qed.

Lemma selectPlane_selection_valid st k :
  selection_valid st -> selection_valid (selectPlane k st).
Proof.
  intros Hv. destruct (Planes st !! k) as [pk|] eqn:Hk.
  - intros s. rewrite selectPlane_Planes, selectPlane_Selected by eauto.
    intros [= <-]. eauto.
  - by rewrite selectPlane_absent.
Qed.

(** C6, as the code has it.  The selection is one optional identity.  A
    click and the summary refresh keep a selection that names a registry
    key valid.  A reconciliation never changes the selection: afterwards
    it is valid exactly when nothing is selected or the snapshot
    contains the selected identity. *)
Theorem selection_valid_step st (ev : event) :
  selection_valid st ->
  match ev with
  | Response data =>
      Selected (step st ev) = Selected st /\
      (selection_valid (step st ev) <->
       forall s, Selected st = Some s -> s ∈ ids data)
  | Click _ | Tick => selection_valid (step st ev)
  end.
Proof.
  intros Hv. destruct ev as [data|h|]; simpl.
  - split; [apply fetchData_Selected|].
    unfold selection_valid. rewrite fetchData_Selected.
    split; intros H s Hs.
    + rewrite <- (fetchData_dom data st). apply elem_of_dom. by apply H.
    + apply elem_of_dom. rewrite fetchData_dom. by apply H.
  - unfold click. destruct (markers st !! h) as [m|]; [|done].
    destruct (planehex m); [|done]. by apply selectPlane_selection_valid.
  - done.
Qed.

(** *** The detail panel *)

Lemma append_assoc (s1 s2 s3 : string) :
  (s1 +:+ s2) +:+ s3 = s1 +:+ (s2 +:+ s3).
Proof.
  induction s1 as [|c s1 IH]; [done|].
  change (String c ((s1 +:+ s2) +:+ s3) = String c (s1 +:+ (s2 +:+ s3))).
  by rewrite IH.
Qed.

(** What [refreshSelectedInfo] writes when [Planes[Selected]] is an
    entry, and that it writes nothing otherwise. *)
Lemma refreshSelectedInfo_resolved st p :
  Planes st !! prop_key (Selected st) = Some p ->
  selinfo (refreshSelectedInfo st) =
    ("ICAO: " +:+ icao p +:+ "<br>")
    +:+ (if decide (flight p = "") then "" else "<b>" +:+ flight p +:+ "</b><br>")
    +:+ ("Altitude: " +:+ pretty (altitude p) +:+ " feet<br>")
    +:+ ("Speed: " +:+ number_to_string (speed p) +:+ " knots<br>")
    +:+ ("Coordinates: " +:+ show_prop (lat p) +:+ ", "
           +:+ show_prop (lon p) +:+ "<br>").
Proof.
  intros Hp. unfold refreshSelectedInfo. rewrite Hp. simpl.
  destruct (Nat.eqb (String.length (flight p)) 0) eqn:He.
  - apply length_zero_empty in He. rewrite decide_True by done.
    by rewrite !append_assoc.
  - rewrite decide_False by (intros He'%length_zero_empty; congruence).
    by rewrite !append_assoc.
Qed.

Lemma refreshSelectedInfo_unresolved st :
  Planes st !! prop_key (Selected st) = None -> refreshSelectedInfo st = st.
Proof. intros Hp. unfold refreshSelectedInfo. by rewrite Hp. Qed.

(** An entry created by a reconciliation has neither [lat] nor [lon]:
    only the update branch assigns them. *)
Lemma fetchData_created st a :
  Planes st !! Json.icao a = None ->
  exists p, Planes (fetchData [a] st) !! Json.icao a = Some p /\
    lat p = None /\ lon p = None.
Proof.
  intros Hk. rewrite fetchData_lookup, bool_decide_eq_true_2.
  - change (foldl fetch_one (st, ∅) [a]) with (fetch_one (st, ∅) a).
    rewrite fetch_one_Planes, lookup_insert_eq, Hk. by eexists.
  - unfold ids. simpl. set_solver.
Qed.

(** *** The fill colour *)

Lemma getIconForPlane_fillColor sel p :
  fillColor (getIconForPlane sel p)
    = "rgb(255,255," +:+ pretty (blue (altitude p)) +:+ ")".
Proof. reflexivity. Qed.

(** C3, at the failing input.  For an entity at altitude 0 the fill
    colour is [rgb(255,255,254)]: red and green are 255, but the blue
    channel is 254, because [255/40000*40000] is 254.99999999999997 in
    binary64 and [parseInt] drops the fraction. *)
Theorem getIconForPlane_sea_level sel p :
  altitude p = 0 -> fillColor (getIconForPlane sel p) = "rgb(255,255,254)".
Proof.
  intros Ha. rewrite getIconForPlane_fillColor, Ha, blue_sea_level.
  reflexivity.
Qed.

(** C9, as the code has it.  For an integer altitude from [-2^53] up to
    -157 the blue channel written into the fill colour exceeds 255,
    there being no upper clamp on the inverted altitude; from -156 to -1
    it is exactly 255; the only clamp is at and above the ceiling, where
    the channel is 0. *)
Theorem getIconForPlane_negative_altitude sel p :
  - 2 ^ 53 <= altitude p < 0 ->
  fillColor (getIconForPlane sel p)
    = "rgb(255,255," +:+ pretty (blue (altitude p)) +:+ ")" /\
  (altitude p <= -157 -> 255 < blue (altitude p)) /\
  (-156 <= altitude p -> blue (altitude p) = 255) /\
  (forall ceiling : Z, maxalt <= ceiling -> blue ceiling = 0).
Proof.
  intros Ha. split; [reflexivity|]. split; [|split].
  - intros Hlow. pose proof (blue_exceeds (altitude p)). lia.
  - intros Hnear. apply blue_just_below_sea_level. lia.
  - apply blue_ceiling.
Qed.

(** *** Further properties of the reconciliation *)

Lemma remove_idle_NumPlanes sh st k :
  NumPlanes (remove_idle sh st k) = NumPlanes st.
Proof.
  unfold remove_idle. case_bool_decide; [done|].
  destruct (Planes st !! k) as [e|]; [|done]. simpl. by destruct (marker e).
Qed.

Lemma remove_idle_selinfo sh st k :
  selinfo (remove_idle sh st k) = selinfo st.
Proof.
  unfold remove_idle. case_bool_decide; [done|].
  destruct (Planes st !! k) as [e|]; [|done]. simpl. by destruct (marker e).
Qed.

Lemma remove_loop_NumPlanes sh keys st :
  NumPlanes (foldl (remove_idle sh) st keys) = NumPlanes st.
Proof.
  revert st. induction keys as [|k keys IH]; intros st; [done|].
  simpl. by rewrite IH, remove_idle_NumPlanes.
Qed.

Lemma remove_loop_selinfo sh keys st :
  selinfo (foldl (remove_idle sh) st keys) = selinfo st.
Proof.
  revert st. induction keys as [|k keys IH]; intros st; [done|].
  simpl. by rewrite IH, remove_idle_selinfo.
Qed.

Lemma remove_loop_length sh keys st :
  length (markers (foldl (remove_idle sh) st keys)) = length (markers st).
Proof.
  revert st. induction keys as [|k keys IH]; intros st; [done|].
  simpl. by rewrite IH, remove_idle_length.
Qed.

Lemma size_ids_le data : (size (ids data) <= length data)%nat.
Proof.
  induction data as [|a data IH]; [done|].
  unfold ids in *. rewrite fmap_cons, list_to_set_cons, size_union_alt, size_singleton.
  assert (size (list_to_set (Json.icao <$> data) ∖ {[Json.icao a]} : gset string)
          <= size (list_to_set (Json.icao <$> data) : gset string))%nat
    by (apply subseteq_size; set_solver).
  cbn [length]. lia.
Qed.

(** X1. After a reconciliation the keys of the registry are exactly the
    identities of the snapshot, whatever the registry held before. *)
Theorem fetchData_registry_keys data st k :
  is_Some (Planes (fetchData data st) !! k) <-> k ∈ Json.icao <$> data.
Proof.
  rewrite <- elem_of_dom, fetchData_dom. unfold ids.
  by rewrite elem_of_list_to_set.
Qed.

Lemma fetchData_NumPlanes data st : NumPlanes (fetchData data st) = length data.
Proof. by rewrite fetchData_unfold, remove_loop_NumPlanes. Qed.

(** X2. The count kept for the summary panel is the number of entries of
    the snapshot; the registry never has more entries than that, and has
    exactly as many when no identity occurs twice in the snapshot. *)
Theorem fetchData_count data st :
  NumPlanes (fetchData data st) = length data /\
  (size (Planes (fetchData data st)) <= length data)%nat /\
  (NoDup (Json.icao <$> data) ->
   size (Planes (fetchData data st)) = length data).
Proof.
  split; [apply fetchData_NumPlanes|].
  rewrite <- size_dom, fetchData_dom. split; [apply size_ids_le|].
  intros Hnd. unfold ids. by rewrite size_list_to_set, length_fmap.
Qed.

Lemma fetch_one_length_exact st sh a :
  length (markers (fetch_one (st, sh) a).1) =
    (length (markers st) +
     match Planes st !! Json.icao a with Some _ => 0 | None => 1 end)%nat.
Proof.
  destruct (Planes st !! Json.icao a) as [q|] eqn:Hq.
  - destruct (marker q) as [h|] eqn:Hh.
    + rewrite (fetch_one_markers_update _ _ _ _ _ Hq Hh), !length_alter. lia.
    + unfold fetch_one; simpl. rewrite Hq, Hh.
      frame. case_bool_decide; frame; lia.
  - rewrite (fetch_one_markers_create _ _ _ Hq), length_app. simpl. lia.
Qed.

Lemma fetch_loop_length_exact st sh data :
  length (markers (foldl fetch_one (st, sh) data).1) =
    (length (markers st) + size (ids data ∖ dom (Planes st)))%nat.
Proof.
  induction data as [|b data IH] using rev_ind.
  - unfold ids. simpl. rewrite difference_disjoint_L by set_solver.
    rewrite size_empty. lia.
  - rewrite fetch_loop_snoc, fetch_one_length_exact, IH, ids_snoc. simpl.
    destruct (Planes (foldl fetch_one (st, sh) data).1 !! Json.icao b) as [q|] eqn:Hq.
    + assert (Json.icao b ∈ ids data ∪ dom (Planes st)) as Hin
        by (rewrite <- (fetch_loop_dom st sh data); apply elem_of_dom; eauto).
      replace ((ids data ∪ {[Json.icao b]}) ∖ dom (Planes st))
        with (ids data ∖ dom (Planes st)) by set_solver.
      lia.
    + assert (Json.icao b ∉ ids data ∪ dom (Planes st)) as Hnin.
      { rewrite <- (fetch_loop_dom st sh data). by apply not_elem_of_dom. }
      replace ((ids data ∪ {[Json.icao b]}) ∖ dom (Planes st))
        with (ids data ∖ dom (Planes st) ∪ {[Json.icao b]}) by set_solver.
      rewrite (size_union_alt (ids data ∖ dom (Planes st)) {[Json.icao b]}).
      assert (({[Json.icao b]} : gset string) ∖ (ids data ∖ dom (Planes st)) = {[Json.icao b]}) as -> by set_solver.
      rewrite size_singleton. lia.
Qed.

(** X3. A reconciliation creates one marker for each identity of the
    snapshot that the registry did not hold, and none for the identities
    it held: the marker heap grows by the number of new identities. *)
Theorem fetchData_marker_count data st :
  length (markers (fetchData data st)) =
    (length (markers st) + size (ids data ∖ dom (Planes st)))%nat.
Proof.
  rewrite fetchData_unfold, remove_loop_length. simpl.
  apply fetch_loop_length_exact.
Qed.

(** An entry that was in the registry before the loop keeps its identity,
    its first coordinates and its marker, and takes the other fields from
    the last occurrence of its identity. *)
Lemma fetch_loop_entry st sh data k q0 :
  Planes st !! k = Some q0 ->
  Planes (foldl fetch_one (st, sh) data).1 !! k =
    Some match last_with k data with
         | Some a => update_plane q0 (trimmed a)
         | None => q0
         end.
Proof.
  intros Hk. induction data as [|b data IH] using rev_ind; [done|].
  rewrite last_with_snoc, fetch_loop_snoc, fetch_one_Planes.
  case_decide as Hb.
  - subst k. rewrite lookup_insert_eq, IH. by destruct (last_with _ data).
  - by rewrite lookup_insert_ne.
Qed.

Lemma fetch_loop_created st sh data k a :
  Planes st !! k = None -> filter (fun b => Json.icao b = k) data = [a] ->
  exists h, (length (markers st) <= h)%nat /\
    Planes (foldl fetch_one (st, sh) data).1 !! k
      = Some (set_marker h (trimmed a)).
Proof.
  intros Hk. induction data as [|b data IH] using rev_ind; [done|].
  rewrite filter_app, fetch_loop_snoc, fetch_one_Planes.
  destruct (decide (Json.icao b = k)) as [Hb|Hb].
  - rewrite filter_cons_True by done. simpl. intros Hf.
    assert (filter (fun b => Json.icao b = k) data = [] /\ b = a) as [Hnil ->].
    { destruct (filter (fun b => Json.icao b = k) data) as [|c l].
      - simpl in Hf. by inversion Hf.
      - simpl in Hf. inversion Hf as [[Hc Hl]]. by destruct l. }
    assert (k ∉ ids data) as Hnin.
    { intros [c Hc]%last_with_is_Some. unfold last_with in Hc. by rewrite Hnil in Hc. }
    subst k. rewrite lookup_insert_eq, (fetch_loop_other _ _ _ _ Hnin), Hk.
    eexists. split; [apply fetch_loop_length | done].
  - rewrite filter_cons_False by done. simpl. rewrite app_nil_r. intros Hf.
    rewrite lookup_insert_ne by done. by apply IH.
Qed.

(** X4. An identity that the registry does not hold and that occurs once
    in the snapshot gets an entry made of the snapshot entry with the
    callsign trimmed, without [lat] and [lon], and a marker of its own:
    one that did not exist before, on the map at the snapshot position,
    carrying the identity, with the icon and title of the entry. *)
Theorem fetchData_creates_new st data k a :
  wf st -> Planes st !! k = None ->
  filter (fun b => Json.icao b = k) data = [a] ->
  exists h m,
    Planes (fetchData data st) !! k = Some (set_marker h (trimmed a)) /\
    lat (set_marker h (trimmed a)) = None /\
    lon (set_marker h (trimmed a)) = None /\
    (length (markers st) <= h)%nat /\
    markers (fetchData data st) !! h = Some m /\
    position m = (Json.latitude a, Json.longitude a) /\
    onmap m = true /\ planehex m = Some k /\
    title m = Some (title_text (trimmed a)) /\
    icon m = getIconForPlane (Selected st) (trimmed a).
Proof.
  intros Hwf Hk Hf.
  assert (last_with k data = Some a) as Ha by (unfold last_with; by rewrite Hf).
  assert (k ∈ ids data) as Hin by (apply last_with_is_Some; eauto).
  destruct (fetch_loop_created st ∅ data k a Hk Hf) as (h & Hh & Hp).
  assert (Planes (fetchData data st) !! k = Some (set_marker h (trimmed a))) as Hp'
    by (by rewrite fetchData_lookup, bool_decide_eq_true_2).
  destruct (fetchData_marker_of data st k a Hwf Ha) as (m & Hm & Hpos & Hic & Ht & Hon).
  destruct (wf_marker_of _ k _ (fetchData_wf data st Hwf) Hp')
    as (h' & m' & Hh' & Hm' & Hmo & Hx & _).
  simpl in Hh'. injection Hh' as <-.
  assert (m' = m) as -> by congruence.
  exists h, m. done.
Qed.

(** *** The detail panel during clicks and reconciliations *)

Lemma refreshSelectedInfo_detail st p :
  Planes st !! prop_key (Selected st) = Some p ->
  selinfo (refreshSelectedInfo st) = detail_html p.
Proof. intros Hp. unfold refreshSelectedInfo. by rewrite Hp. Qed.

Lemma detail_html_text p :
  detail_html p =
    ("ICAO: " +:+ icao p +:+ "<br>")
    +:+ (if decide (flight p = "") then "" else "<b>" +:+ flight p +:+ "</b><br>")
    +:+ ("Altitude: " +:+ pretty (altitude p) +:+ " feet<br>")
    +:+ ("Speed: " +:+ number_to_string (speed p) +:+ " knots<br>")
    +:+ ("Coordinates: " +:+ show_prop (lat p) +:+ ", "
           +:+ show_prop (lon p) +:+ "<br>").
Proof.
  unfold detail_html.
  destruct (Nat.eqb (String.length (flight p)) 0) eqn:He.
  - apply length_zero_empty in He. rewrite decide_True by done.
    by rewrite !append_assoc.
  - rewrite decide_False by (intros He'%length_zero_empty; congruence).
    by rewrite !append_assoc.
Qed.

Lemma selectPlane_selinfo st k p :
  Planes st !! k = Some p -> selinfo (selectPlane k st) = detail_html p.
Proof.
  intros Hk. unfold selectPlane. rewrite Hk. apply refreshSelectedInfo_detail.
  frame. destruct (Planes st !! prop_key (Selected st)); frame;
    rewrite Hk; by frame.
Qed.

(** X5. A click on a registered identity writes the detail panel from
    that identity's entry: the identity, the callsign in bold when it is
    not empty, the altitude, the speed, and the [lat] and [lon] properties
    of the entry ([undefined] while they are not set); nothing of the
    previous panel text remains. *)
Theorem selectPlane_shows_details st k p :
  Planes st !! k = Some p ->
  selinfo (selectPlane k st) =
    ("ICAO: " +:+ icao p +:+ "<br>")
    +:+ (if decide (flight p = "") then "" else "<b>" +:+ flight p +:+ "</b><br>")
    +:+ ("Altitude: " +:+ pretty (altitude p) +:+ " feet<br>")
    +:+ ("Speed: " +:+ number_to_string (speed p) +:+ " knots<br>")
    +:+ ("Coordinates: " +:+ show_prop (lat p) +:+ ", "
           +:+ show_prop (lon p) +:+ "<br>").
Proof.
  intros Hk. rewrite (selectPlane_selinfo st k p Hk). apply detail_html_text.
Qed.

(** The panel after one iteration of the snapshot loop. *)
Lemma fetch_one_selinfo st sh a :
  wf st ->
  selinfo (fetch_one (st, sh) a).1 =
    match Planes st !! Json.icao a with
    | Some q =>
        if bool_decide (Selected st = Some (Json.icao a))
        then detail_html (update_plane q (trimmed a))
        else selinfo st
    | None => selinfo st
    end.
Proof.
  intros Hwf. unfold fetch_one; simpl.
  destruct (Planes st !! Json.icao a) as [q|] eqn:Hq; [|by frame].
  destruct (Hwf _ _ Hq) as [Hi _]. frame. rewrite Hi.
  case_bool_decide as Hs; frame; [|done].
  apply refreshSelectedInfo_detail. frame. rewrite Hs. simpl.
  by rewrite lookup_insert_eq.
Qed.

Lemma fetch_loop_selinfo_absent st sh data :
  wf st -> (forall s, Selected st = Some s -> s ∉ ids data) ->
  selinfo (foldl fetch_one (st, sh) data).1 = selinfo st.
Proof.
  intros Hwf. induction data as [|b data IH] using rev_ind; [done|].
  rewrite ids_snoc. intros Hs.
  rewrite fetch_loop_snoc, fetch_one_selinfo by (by apply fetch_loop_wf).
  rewrite fetch_loop_Selected.
  destruct (Planes _ !! Json.icao b); [|apply IH; set_solver].
  rewrite bool_decide_eq_false_2; [apply IH; set_solver|].
  intros Heq. apply (Hs _ Heq). set_solver.
Qed.

Lemma fetch_loop_selinfo_selected st sh data k q0 a :
  wf st -> Selected st = Some k -> Planes st !! k = Some q0 ->
  last_with k data = Some a ->
  selinfo (foldl fetch_one (st, sh) data).1
    = detail_html (update_plane q0 (trimmed a)).
Proof.
  intros Hwf Hs Hk. revert a.
  induction data as [|b data IH] using rev_ind; [done|].
  intros a. rewrite last_with_snoc.
  rewrite fetch_loop_snoc, fetch_one_selinfo by (by apply fetch_loop_wf).
  rewrite fetch_loop_Selected, Hs.
  case_decide as Hb.
  - intros [= <-]. subst k.
    rewrite (fetch_loop_entry st sh data _ q0 Hk).
    rewrite bool_decide_eq_true_2 by done.
    by destruct (last_with (Json.icao b) data).
  - intros Ha.
    destruct (Planes _ !! Json.icao b); [|by apply IH].
    rewrite bool_decide_eq_false_2 by congruence. by apply IH.
Qed.

(** X6. When the selected identity is in the registry and in the
    snapshot, the reconciliation re-renders the detail panel from the
    updated entry: the fields of the last snapshot entry for the
    identity, with its latitude and longitude as coordinates. *)
Theorem fetchData_refreshes_panel st data k q0 a :
  wf st -> Selected st = Some k -> Planes st !! k = Some q0 ->
  last_with k data = Some a ->
  Planes (fetchData data st) !! k = Some (update_plane q0 (trimmed a)) /\
  selinfo (fetchData data st) =
    ("ICAO: " +:+ icao q0 +:+ "<br>")
    +:+ (if decide (trim (Json.flight a) = "") then ""
         else "<b>" +:+ trim (Json.flight a) +:+ "</b><br>")
    +:+ ("Altitude: " +:+ pretty (Json.altitude a) +:+ " feet<br>")
    +:+ ("Speed: " +:+ number_to_string (Json.speed a) +:+ " knots<br>")
    +:+ ("Coordinates: " +:+ number_to_string (Json.latitude a) +:+ ", "
           +:+ number_to_string (Json.longitude a) +:+ "<br>").
Proof.
  intros Hwf Hs Hk Ha. split.
  - rewrite fetchData_lookup, bool_decide_eq_true_2
      by (apply last_with_is_Some; eauto).
    by rewrite (fetch_loop_entry st ∅ data k q0 Hk), Ha.
  - rewrite fetchData_unfold, remove_loop_selinfo. simpl.
    rewrite (fetch_loop_selinfo_selected st ∅ data k q0 a Hwf Hs Hk Ha).
    by rewrite detail_html_text.
Qed.

Lemma fetchData_keeps_panel_lemma st data :
  wf st -> (forall s, Selected st = Some s -> s ∉ ids data) ->
  selinfo (fetchData data st) = selinfo st.
Proof.
  intros Hwf Hs. rewrite fetchData_unfold, remove_loop_selinfo. simpl.
  by apply fetch_loop_selinfo_absent.
Qed.

(** X7. When nothing is selected, or the selected identity is not in the
    snapshot, a reconciliation leaves the text of the detail panel as it
    was, also when it removes the selected entry. *)
Theorem fetchData_keeps_panel st data :
  wf st -> (forall s, Selected st = Some s -> s ∉ ids data) ->
  selinfo (fetchData data st) = selinfo st /\
  Selected (fetchData data st) = Selected st.
Proof.
  intros Hwf Hs. split; [by apply fetchData_keeps_panel_lemma|].
  apply fetchData_Selected.
Qed.

(** *** What a click changes *)

Lemma alter_setIcon_sans_icon (i : Icon number) (j h : nat) (ms : list (Marker number)) :
  sans_icon <$> alter (setIcon i) j ms !! h = sans_icon <$> ms !! h.
Proof.
  destruct (decide (j = h)) as [->|Hne].
  - rewrite list_lookup_alter_eq. by destruct (ms !! h).
  - by rewrite list_lookup_alter_ne.
Qed.

Lemma on_marker_setIcon_sans_icon (i : Icon number) (o : option nat) st (h : nat) :
  sans_icon <$> markers (on_marker o (setIcon i) st) !! h
    = sans_icon <$> markers st !! h.
Proof. destruct o; simpl; [apply alter_setIcon_sans_icon | done]. Qed.

Lemma selectPlane_sans_icon st k (h : nat) :
  sans_icon <$> markers (selectPlane k st) !! h = sans_icon <$> markers st !! h.
Proof.
  destruct (Planes st !! k) as [pk|] eqn:Hk; [|by rewrite selectPlane_absent].
  rewrite (selectPlane_markers _ _ _ Hk), on_marker_setIcon_sans_icon.
  unfold unhighlight. destruct (Planes st !! prop_key (Selected st)); [|done].
  by rewrite on_marker_setIcon_sans_icon.
Qed.

Lemma refreshSelectedInfo_NumPlanes_geninfo st :
  NumPlanes (refreshSelectedInfo st) = NumPlanes st /\
  geninfo (refreshSelectedInfo st) = geninfo st.
Proof.
  unfold refreshSelectedInfo.
  by destruct (Planes st !! prop_key (Selected st)).
Qed.

Lemma on_marker_NumPlanes_geninfo o f st :
  NumPlanes (on_marker o f st) = NumPlanes st /\
  geninfo (on_marker o f st) = geninfo st.
Proof. by destruct o. Qed.

Lemma selectPlane_NumPlanes_geninfo st k :
  NumPlanes (selectPlane k st) = NumPlanes st /\
  geninfo (selectPlane k st) = geninfo st.
Proof.
  unfold selectPlane. destruct (Planes st !! k) as [pk|]; [|done].
  match goal with
  | |- context [refreshSelectedInfo ?s] =>
      destruct (refreshSelectedInfo_NumPlanes_geninfo s) as [-> ->]
  end.
  repeat (match goal with
          | |- context [match ?x with Some _ => _ | None => _ end] => destruct x
          end; simpl).
  all: repeat match goal with
       | |- context [on_marker ?o ?f ?s] =>
           destruct (on_marker_NumPlanes_geninfo o f s) as [-> ->]
       end; done.
Qed.

Lemma selectPlane_touches_lengths st k :
  length (markers (selectPlane k st)) = length (markers st).
Proof.
  destruct (Planes st !! k) as [pk|] eqn:Hk; [|by rewrite selectPlane_absent].
  rewrite (selectPlane_markers _ _ _ Hk), on_marker_length.
  unfold unhighlight. destruct (Planes st !! prop_key (Selected st)); [|done].
  by rewrite on_marker_length.
Qed.

(** X8. A click changes nothing but icons, the selection and the detail
    panel: the registry, the count, the summary panel and the number of
    markers are as before, and every marker keeps its position, its map,
    its title and its identity. *)
Theorem selectPlane_touches_icons_only st k :
  Planes (selectPlane k st) = Planes st /\
  NumPlanes (selectPlane k st) = NumPlanes st /\
  geninfo (selectPlane k st) = geninfo st /\
  length (markers (selectPlane k st)) = length (markers st) /\
  forall h : nat,
    sans_icon <$> markers (selectPlane k st) !! h
      = sans_icon <$> markers st !! h.
Proof.
  split; [apply selectPlane_Planes|].
  destruct (selectPlane_NumPlanes_geninfo st k) as [-> ->].
  split; [done|]. split; [done|].
  split; [apply selectPlane_touches_lengths | apply selectPlane_sans_icon].
Qed.

(** X9. A click on the marker of a registered identity runs [selectPlane]
    for that identity: it becomes the selection and its marker gets
    stroke weight 2. *)
Theorem click_selects_marker_plane st k p (h : nat) :
  wf st -> Planes st !! k = Some p -> marker p = Some h ->
  click h st = selectPlane k st /\
  Selected (click h st) = Some k /\
  exists m, markers (click h st) !! h = Some m /\ strokeWeight (icon m) = 2.
Proof.
  intros Hwf Hp Hh.
  destruct (Hwf _ _ Hp) as (_ & h' & m & Hh' & Hm & Hx & _).
  assert (h' = h) as -> by congruence.
  assert (click h st = selectPlane k st) as Hc
    by (unfold click; by rewrite Hm, Hx).
  rewrite Hc. split; [done|].
  destruct (selectPlane_highlight st k Hwf (mk_is_Some _ _ Hp)) as [Hs Hall].
  split; [done|].
  destruct (Hall k p) as (m' & Hm' & Hw); [by rewrite selectPlane_Planes|].
  exists m'. split.
  - unfold marker_of in Hm'. by rewrite selectPlane_Planes, Hp, Hh in Hm'.
  - by rewrite Hw, bool_decide_eq_true_2.
Qed.

(** *** Callsigns made of whitespace *)

Lemma ltrim_blank (l : list ascii) :
  Forall (fun c => is_space c = true) l -> ltrim l = [].
Proof. induction 1 as [|c l Hc _ IH]; simpl; [done | by rewrite Hc]. Qed.

Lemma trim_blank (s : string) :
  Forall (fun c => is_space c = true) (list_ascii_of_string s) -> trim s = "".
Proof. intros Hs. unfold trim. by rewrite (ltrim_blank _ Hs). Qed.

(** Whatever the registry held, the entry of a snapshot identity ends
    with the callsign, altitude, speed and track of its last occurrence. *)
Lemma fetch_loop_fields st sh data k a :
  last_with k data = Some a ->
  exists p, Planes (foldl fetch_one (st, sh) data).1 !! k = Some p /\
    flight p = trim (Json.flight a) /\ altitude p = Json.altitude a /\
    speed p = Json.speed a /\ track p = Json.track a.
Proof.
  revert a. induction data as [|b data IH] using rev_ind; [done|].
  intros a. rewrite last_with_snoc, fetch_loop_snoc, fetch_one_Planes.
  case_decide as Hb.
  - intros [= <-]. subst k. rewrite lookup_insert_eq.
    destruct (Planes _ !! Json.icao b); by eexists.
  - rewrite lookup_insert_ne by done. apply IH.
Qed.

(** X11. A callsign made only of whitespace counts as no callsign: the
    entry stores the empty callsign and the marker is titled with the
    identity alone. *)
Theorem fetchData_blank_callsign st data k a :
  wf st -> last_with k data = Some a ->
  Forall (fun c => is_space c = true) (list_ascii_of_string (Json.flight a)) ->
  (exists p, Planes (fetchData data st) !! k = Some p /\ flight p = "") /\
  (exists m, marker_of (fetchData data st) k = Some m /\ title m = Some k).
Proof.
  intros Hwf Ha Hblank. pose proof (trim_blank _ Hblank) as Ht.
  pose proof (last_with_icao _ _ _ Ha) as Hi. split.
  - destruct (fetch_loop_fields st ∅ data k a Ha) as (p & Hp & Hf & _).
    exists p. split; [|by rewrite Hf].
    rewrite fetchData_lookup, bool_decide_eq_true_2; [done|].
    apply last_with_is_Some. eauto.
  - destruct (fetchData_marker_of data st k a Hwf Ha) as (m & Hm & _ & _ & Htt & _).
    exists m. split; [done|]. rewrite Htt, title_text_trimmed, Ht, Hi.
    by rewrite decide_True.
Qed.

(** *** Invariants of the reachable states *)

Lemma fetch_one_no_orphans st sh a :
  wf st -> no_orphans st -> no_orphans (fetch_one (st, sh) a).1.
Proof.
  intros Hwf Hno h m. rewrite fetch_one_Planes.
  destruct (Planes st !! Json.icao a) as [q|] eqn:Hq.
  - destruct (Hwf _ _ Hq) as (_ & hq & mq & Hhq & Hmq & Hxq & _).
    rewrite (fetch_one_markers_update _ _ _ _ _ Hq Hhq).
    destruct (decide (hq = h)) as [->|Hne].
    + rewrite !list_lookup_alter_eq, Hmq. simpl. intros [= <-] _.
      exists (Json.icao a), (update_plane q (trimmed a)).
      by rewrite lookup_insert_eq.
    + rewrite !list_lookup_alter_ne by done. intros Hm Hon.
      destruct (Hno h m Hm Hon) as (k & p & Hx & Hp & Hh).
      exists k, p. split; [done|]. split; [|done].
      rewrite lookup_insert_ne; [done|]. intros <-. congruence.
  - rewrite (fetch_one_markers_create _ _ _ Hq).
    intros [Hm|[Hlen Hm]]%lookup_app_Some Hon.
    + destruct (Hno h m Hm Hon) as (k & p & Hx & Hp & Hh).
      exists k, p. split; [done|]. split; [|done].
      rewrite lookup_insert_ne; [done|]. intros <-. congruence.
    + apply list_lookup_singleton_Some in Hm as [Hz <-].
      exists (Json.icao a), (set_marker (length (markers st)) (trimmed a)).
      rewrite lookup_insert_eq. simpl. repeat split. f_equal. lia.
Qed.

Lemma fetch_loop_no_orphans st sh data :
  wf st -> no_orphans st -> no_orphans (foldl fetch_one (st, sh) data).1.
Proof.
  intros Hwf Hno. induction data as [|b data IH] using rev_ind; [done|].
  rewrite fetch_loop_snoc. apply fetch_one_no_orphans; [|done].
  by apply fetch_loop_wf.
Qed.

Lemma remove_idle_no_orphans sh st k :
  wf st -> no_orphans st -> no_orphans (remove_idle sh st k).
Proof.
  intros Hwf Hno. unfold remove_idle. case_bool_decide; [done|].
  destruct (Planes st !! k) as [e|] eqn:He; [|done].
  destruct (Hwf _ _ He) as (_ & he & me & Hhe & Hme & _).
  rewrite Hhe. intros h m. simpl.
  destruct (decide (he = h)) as [->|Hne].
  - rewrite list_lookup_alter_eq, Hme. simpl. by intros [= <-] ?.
  - rewrite list_lookup_alter_ne by done. intros Hm Hon.
    destruct (Hno h m Hm Hon) as (k' & p & Hx & Hp & Hh).
    exists k', p. split; [done|]. split; [|done].
    rewrite lookup_delete_ne; [done|]. intros <-. congruence.
Qed.

Lemma remove_loop_no_orphans sh keys st :
  wf st -> no_orphans st -> no_orphans (foldl (remove_idle sh) st keys).
Proof.
  revert st. induction keys as [|k keys IH]; intros st Hwf Hno; [done|].
  simpl. apply IH; [by apply remove_idle_wf | by apply remove_idle_no_orphans].
Qed.

Lemma fetchData_no_orphans data st :
  wf st -> no_orphans st -> no_orphans (fetchData data st).
Proof.
  intros Hwf Hno. rewrite fetchData_unfold. apply remove_loop_no_orphans.
  - by apply set_NumPlanes_wf, fetch_loop_wf.
  - by apply (fetch_loop_no_orphans st ∅ data).
Qed.

Lemma selectPlane_no_orphans st k :
  no_orphans st -> no_orphans (selectPlane k st).
Proof.
  intros Hno h m Hm Hon. rewrite selectPlane_Planes.
  pose proof (selectPlane_sans_icon st k h) as Hs. rewrite Hm in Hs.
  destruct (markers st !! h) as [m0|] eqn:Hm0; [|done].
  simpl in Hs. injection Hs as Hpos Hon' Ht Hx.
  destruct (Hno h m0 Hm0) as (k' & p & Hx' & Hp & Hh); [congruence|].
  exists k', p. split; [congruence | done].
Qed.

Lemma step_no_orphans st (ev : event) :
  wf st -> no_orphans st -> no_orphans (step st ev).
Proof.
  intros Hwf Hno. destruct ev as [data|h|]; simpl; [|unfold click|done].
  - by apply fetchData_no_orphans.
  - destruct (markers st !! h) as [m|]; [|done].
    destruct (planehex m); [|done]. by apply selectPlane_no_orphans.
Qed.

Lemma run_no_orphans (evs : list event) : no_orphans (number := number) (run evs).
Proof.
  unfold run. induction evs as [|ev evs IH] using rev_ind.
  - intros h m Hm. simpl in Hm. by rewrite lookup_nil in Hm.
  - rewrite foldl_snoc. apply step_no_orphans; [apply (run_wf evs) | done].
Qed.

(** X12. In every state the page reaches, each registry entry is stored
    under its own identity and has a marker on the map that carries the
    identity and shows the icon of the entry for the current selection;
    no other entry has the same marker. *)
Theorem reachable_entry_has_marker (evs : list event) k p :
  Planes (run evs) !! k = Some p ->
  icao p = k /\
  exists h m, marker p = Some h /\ markers (run evs) !! h = Some m /\
    planehex m = Some k /\ onmap m = true /\
    icon m = getIconForPlane (Selected (run evs)) p /\
    forall k' p', Planes (run evs) !! k' = Some p' -> marker p' = Some h ->
                  k' = k.
Proof.
  intros Hp. pose proof (run_wf evs) as Hwf.
  destruct (Hwf _ _ Hp) as (Hi & h & m & Hh & Hm & Hx & Hon & Hic).
  split; [done|]. exists h, m. repeat split; try done.
  intros k' p' Hp' Hh'. by apply (wf_marker_inj _ k' k p' p h Hwf).
Qed.

(** X13. In every state the page reaches, a marker that is on the map
    belongs to a registry entry: the entry of the identity the marker
    carries.  Markers of removed planes are never left on the map. *)
Theorem reachable_marker_has_entry (evs : list event) (h : nat) m :
  markers (run evs) !! h = Some m -> onmap m = true ->
  exists k p, planehex m = Some k /\ Planes (run evs) !! k = Some p /\
    marker p = Some h.
Proof. apply run_no_orphans. Qed.

(** *** Repeating a snapshot *)

Lemma fetch_one_geninfo st sh a : geninfo (fetch_one (st, sh) a).1 = geninfo st.
Proof.
  unfold fetch_one; simpl. destruct (Planes st !! Json.icao a) as [q|]; [|done].
  destruct (marker q); simpl; case_bool_decide; simpl;
    rewrite ?(proj2 (refreshSelectedInfo_NumPlanes_geninfo _)); done.
Qed.

Lemma fetch_loop_geninfo st sh data :
  geninfo (foldl fetch_one (st, sh) data).1 = geninfo st.
Proof.
  induction data as [|b data IH] using rev_ind; [done|].
  by rewrite fetch_loop_snoc, fetch_one_geninfo.
Qed.

Lemma remove_idle_geninfo sh st k :
  geninfo (remove_idle sh st k) = geninfo st.
Proof.
  unfold remove_idle. case_bool_decide; [done|].
  destruct (Planes st !! k) as [e|]; [|done]. simpl. by destruct (marker e).
Qed.

Lemma fetchData_geninfo data st : geninfo (fetchData data st) = geninfo st.
Proof.
  rewrite fetchData_unfold.
  assert (forall keys (s : State number),
            geninfo (foldl (remove_idle (ids data)) s keys) = geninfo s)
    as Hloop.
  { induction keys as [|k keys IH]; intros s; [done|].
    simpl. by rewrite IH, remove_idle_geninfo. }
  rewrite Hloop. simpl. apply fetch_loop_geninfo.
Qed.

(** A marker that is off the map is out of reach of the snapshot loop. *)
Lemma fetch_one_offmap_untouched st sh a (j : nat) m :
  wf st -> markers st !! j = Some m -> onmap m = false ->
  markers (fetch_one (st, sh) a).1 !! j = Some m.
Proof.
  intros Hwf Hm Hoff.
  destruct (Planes st !! Json.icao a) as [q|] eqn:Hq.
  - destruct (Hwf _ _ Hq) as (_ & hq & mq & Hhq & Hmq & _ & Hon & _).
    rewrite (fetch_one_markers_update _ _ _ _ _ Hq Hhq).
    assert (hq <> j) by (intros ->; congruence).
    by rewrite !list_lookup_alter_ne.
  - rewrite (fetch_one_markers_create _ _ _ Hq).
    by apply lookup_app_l_Some.
Qed.

Lemma fetch_loop_offmap_untouched st sh data (j : nat) m :
  wf st -> markers st !! j = Some m -> onmap m = false ->
  markers (foldl fetch_one (st, sh) data).1 !! j = Some m.
Proof.
  intros Hwf Hm Hoff. induction data as [|b data IH] using rev_ind; [done|].
  rewrite fetch_loop_snoc. apply fetch_one_offmap_untouched; [|done..].
  by apply fetch_loop_wf.
Qed.

(** When every enumerated key is still here, the removal loop does
    nothing. *)
Lemma remove_loop_all_kept sh keys st :
  (forall k, k ∈ keys -> k ∈ sh) -> foldl (remove_idle sh) st keys = st.
Proof.
  revert st. induction keys as [|k keys IH]; intros st Hall; [done|].
  simpl. unfold remove_idle at 2.
  rewrite bool_decide_eq_true_2 by (apply Hall; set_solver).
  apply IH. intros k' Hk'. apply Hall. set_solver.
Qed.

Lemma State_eq (s s' : State number) :
  Planes s = Planes s' -> NumPlanes s = NumPlanes s' ->
  Selected s = Selected s' -> markers s = markers s' ->
  selinfo s = selinfo s' -> geninfo s = geninfo s' -> s = s'.
Proof. destruct s, s'; simpl; by intros -> -> -> -> -> ->. Qed.

Lemma Marker_eq (m m' : Marker number) :
  position m = position m' -> onmap m = onmap m' -> icon m = icon m' ->
  title m = title m' -> planehex m = planehex m' -> m = m'.
Proof. destruct m, m'; simpl; by intros -> -> -> -> ->. Qed.

(** A second reconciliation of the same snapshot settles the state: a
    third one changes nothing. *)
Lemma fetchData_settled data st :
  wf st -> no_orphans st ->
  fetchData data (fetchData data (fetchData data st))
    = fetchData data (fetchData data st).
Proof.
  intros Hwf Hno.
  set (s1 := fetchData data st).
  set (s2 := fetchData data s1).
  assert (wf s1) as Hwf1 by (by apply fetchData_wf).
  assert (wf s2) as Hwf2 by (by apply fetchData_wf).
  assert (wf (fetchData data s2)) as Hwf3 by (by apply fetchData_wf).
  assert (no_orphans s2) as Hno2 by (by apply fetchData_no_orphans, fetchData_no_orphans).
  assert (Selected s2 = Selected s1) as Hsel by apply fetchData_Selected.
  assert (forall k a, last_with k data = Some a ->
            exists q1, Planes s1 !! k = Some q1 /\
              Planes s2 !! k = Some (update_plane q1 (trimmed a)) /\
              Planes (fetchData data s2) !! k = Some (update_plane q1 (trimmed a)))
    as Hentry.
  { intros k a Ha.
    assert (k ∈ ids data) as Hk by (apply last_with_is_Some; eauto).
    assert (is_Some (Planes s1 !! k)) as [q1 Hq1]
      by (apply elem_of_dom; unfold s1; by rewrite fetchData_dom).
    exists q1. split; [done|].
    assert (Planes s2 !! k = Some (update_plane q1 (trimmed a))) as Hq2.
    { unfold s2. rewrite fetchData_lookup, bool_decide_eq_true_2 by done.
      by rewrite (fetch_loop_entry s1 ∅ data k q1 Hq1), Ha. }
    split; [done|].
    rewrite fetchData_lookup, bool_decide_eq_true_2 by done.
    by rewrite (fetch_loop_entry s2 ∅ data k _ Hq2), Ha. }
  assert (Planes (fetchData data s2) = Planes s2) as HP.
  { apply map_eq. intros k.
    destruct (decide (k ∈ ids data)) as [Hk|Hk].
    - apply last_with_is_Some in Hk as [a Ha].
      destruct (Hentry k a Ha) as (q1 & _ & -> & ->). done.
    - unfold s2 at 2. by rewrite !fetchData_lookup, !bool_decide_eq_false_2. }
  apply State_eq.
  - done.
  - unfold s2 at 2. by rewrite !fetchData_NumPlanes.
  - apply fetchData_Selected.
  - assert (markers (fetchData data s2) = markers (foldl fetch_one (s2, ∅) data).1)
      as Hloop.
    { rewrite fetchData_unfold, remove_loop_all_kept; [done|].
      intros k Hk%keys_spec. simpl in Hk. apply elem_of_dom in Hk.
      rewrite fetch_loop_dom in Hk. unfold s2 in Hk.
      rewrite fetchData_dom in Hk. set_solver. }
    apply list_eq. intros j.
    destruct (markers s2 !! j) as [m2|] eqn:Hm2.
    + destruct (onmap m2) eqn:Hon2.
      * destruct (Hno2 j m2 Hm2 Hon2) as (k & p2 & Hx2 & Hp2 & Hj).
        assert (k ∈ ids data) as Hk
          by (rewrite <- (fetchData_dom data s1); apply elem_of_dom; eauto).
        apply last_with_is_Some in Hk as [a Ha].
        destruct (fetchData_marker_of data s1 k a Hwf1 Ha)
          as (m & Hm & Hpos & Hic & Ht & Hon).
        fold s2 in Hm. unfold marker_of in Hm. rewrite Hp2, Hj, Hm2 in Hm.
        injection Hm as <-.
        destruct (fetchData_marker_of data s2 k a Hwf2 Ha)
          as (m3 & Hm3 & Hpos3 & Hic3 & Ht3 & Hon3).
        destruct (wf_marker_of _ k p2 Hwf3) as (h' & m' & Hh' & Hm' & Hmo' & Hx3 & _);
          [by rewrite HP|].
        assert (m' = m3) as -> by congruence.
        assert (h' = j) as -> by congruence.
        rewrite Hm'. f_equal. apply Marker_eq; congruence.
      * rewrite Hloop. by apply fetch_loop_offmap_untouched.
    + rewrite Hloop. apply lookup_ge_None. apply lookup_ge_None in Hm2.
      rewrite fetch_loop_length_exact. unfold s2 at 2.
      rewrite fetchData_dom, difference_diag_L, size_empty. lia.
  - destruct (Selected s1) as [k|] eqn:Hs1.
    + destruct (decide (k ∈ ids data)) as [Hk|Hk].
      * apply last_with_is_Some in Hk as [a Ha].
        destruct (Hentry k a Ha) as (q1 & Hq1 & Hq2 & _).
        rewrite fetchData_unfold, remove_loop_selinfo. simpl.
        rewrite (fetch_loop_selinfo_selected s2 ∅ data k _ a Hwf2 Hsel Hq2 Ha).
        unfold s2. rewrite fetchData_unfold, remove_loop_selinfo. simpl.
        by rewrite (fetch_loop_selinfo_selected s1 ∅ data k q1 a Hwf1 Hs1 Hq1 Ha).
      * apply fetchData_keeps_panel_lemma; [done|]. intros s. rewrite Hsel.
        by intros [= <-].
    + apply fetchData_keeps_panel_lemma; [done|]. intros s. by rewrite Hsel.
  - apply fetchData_geninfo.
Qed.

(** X14. From any state the page reaches, a second reconciliation of the
    same snapshot settles everything: reconciling the snapshot a third
    time gives the very same state (registry, markers, selection, count
    and panels). *)
Theorem fetchData_repeat_stable (evs : list event) data :
  fetchData data (fetchData data (fetchData data (run evs)))
    = fetchData data (fetchData data (run evs)).
Proof. apply fetchData_settled; [apply run_wf | apply run_no_orphans]. Qed.


(** *** More on entries that stay, return or vanish *)

(** X15. An identity that stays in the registry through a reconciliation
    keeps its marker, its identity and the [latitude] and [longitude] of
    its first sighting; the current position goes to [lat] and [lon]. *)
Theorem fetchData_keeps_marker st data k q0 a :
  Planes st !! k = Some q0 -> last_with k data = Some a ->
  exists p, Planes (fetchData data st) !! k = Some p /\
    marker p = marker q0 /\ icao p = icao q0 /\
    latitude p = latitude q0 /\ longitude p = longitude q0 /\
    lat p = Some (Json.latitude a) /\ lon p = Some (Json.longitude a).
Proof.
  intros Hk Ha. exists (update_plane q0 (trimmed a)). split; [|done].
  rewrite fetchData_lookup, bool_decide_eq_true_2
    by (apply last_with_is_Some; eauto).
  by rewrite (fetch_loop_entry st ∅ data k q0 Hk), Ha.
Qed.

Lemma fetch_loop_selinfo_returning st sh data k :
  wf st -> Selected st = Some k -> Planes st !! k = None ->
  (length (filter (fun b => Json.icao b = k) data) <= 1)%nat ->
  selinfo (foldl fetch_one (st, sh) data).1 = selinfo st.
Proof.
  intros Hwf Hs Hk. induction data as [|b data IH] using rev_ind; [done|].
  rewrite filter_app, length_app.
  rewrite fetch_loop_snoc, fetch_one_selinfo by (by apply fetch_loop_wf).
  rewrite fetch_loop_Selected, Hs.
  destruct (decide (Json.icao b = k)) as [Hb|Hb].
  - rewrite filter_cons_True by done. simpl. intros Hlen.
    assert (filter (fun b => Json.icao b = k) data = []) as Hnil
      by (destruct (filter _ data); [done | simpl in Hlen; lia]).
    assert (k ∉ ids data) as Hnin.
    { intros [c Hc]%last_with_is_Some. unfold last_with in Hc. by rewrite Hnil in Hc. }
    rewrite Hb, (fetch_loop_other _ _ _ _ Hnin), Hk.
    apply IH. rewrite Hnil. simpl. lia.
  - rewrite filter_cons_False by done. simpl. intros Hlen.
    destruct (Planes _ !! Json.icao b); [|apply IH; lia].
    rewrite bool_decide_eq_false_2 by congruence. apply IH. lia.
Qed.

(** X16. The selection outlives its plane: when the selected identity is
    not in the registry and a snapshot brings it back (once), the new
    marker has the selected appearance at once, without a click, while
    the detail panel keeps its old text. *)
Theorem fetchData_returning_selection st data k a :
  wf st -> Selected st = Some k -> Planes st !! k = None ->
  filter (fun b => Json.icao b = k) data = [a] ->
  (exists m, marker_of (fetchData data st) k = Some m /\
             strokeWeight (icon m) = 2) /\
  selinfo (fetchData data st) = selinfo st.
Proof.
  intros Hwf Hs Hk Hf.
  assert (last_with k data = Some a) as Ha by (unfold last_with; by rewrite Hf).
  split.
  - destruct (fetchData_marker_of data st k a Hwf Ha) as (m & Hm & _ & Hic & _).
    exists m. split; [done|]. rewrite Hic, Hs. simpl.
    rewrite bool_decide_eq_true_2; [done|].
    f_equal. symmetry. by apply last_with_icao in Ha.
  - rewrite fetchData_unfold, remove_loop_selinfo. simpl.
    apply (fetch_loop_selinfo_returning st ∅ data k Hwf Hs Hk).
    by rewrite Hf.
Qed.

(** X17. An empty snapshot, from any state the page reaches: the
    registry is emptied, no marker is left on the map, none is created,
    the count is 0 and the selection stays as it was. *)
Theorem fetchData_empty_snapshot (evs : list event) :
  Planes (fetchData [] (run evs)) = ∅ /\
  (forall (h : nat) m, markers (fetchData [] (run evs)) !! h = Some m ->
     onmap m = false) /\
  length (markers (fetchData [] (run evs))) = length (markers (run evs)) /\
  NumPlanes (fetchData [] (run evs)) = 0%nat /\
  Selected (fetchData [] (run evs)) = Selected (run evs).
Proof.
  assert (Planes (fetchData [] (run evs)) = ∅) as HP.
  { apply map_eq. intros k. rewrite fetchData_lookup, lookup_empty.
    rewrite bool_decide_eq_false_2; [done|]. unfold ids. simpl. set_solver. }
  split; [done|]. split.
  { intros h m Hm. destruct (onmap m) eqn:Hon; [|done].
    destruct (fetchData_no_orphans [] (run evs) (run_wf evs) (run_no_orphans evs)
                h m Hm Hon) as (k & p & _ & Hp & _).
    rewrite HP in Hp. by rewrite lookup_empty in Hp. }
  split.
  { rewrite fetchData_unfold, remove_loop_length. done. }
  split; [apply fetchData_NumPlanes | apply fetchData_Selected].
Qed.

(** X18. A reconciliation does not rewrite the summary panel: the panel
    changes at the next timer refresh, which then shows the number of
    entries of the last snapshot. *)
Theorem summary_panel_lags data st :
  geninfo (fetchData data st) = geninfo st /\
  geninfo (refreshGeneralInfo (fetchData data st))
    = pretty (length data) +:+ " planes on screen.".
Proof.
  split; [apply fetchData_geninfo|].
  unfold refreshGeneralInfo. simpl. by rewrite fetchData_NumPlanes.
Qed.

(** *** Two clicks in a row *)

Lemma selectPlane_offmap_untouched st k (j : nat) m :
  wf st -> markers st !! j = Some m -> onmap m = false ->
  markers (selectPlane k st) !! j = Some m.
Proof.
  intros Hwf Hm Hoff.
  destruct (Planes st !! k) as [pk|] eqn:Hk; [|by rewrite selectPlane_absent].
  destruct (Hwf _ _ Hk) as (_ & hk & mk & Hhk & Hmk & _ & Honk & _).
  rewrite (selectPlane_markers _ _ _ Hk), Hhk. simpl.
  assert (hk <> j) by (intros ->; congruence).
  rewrite list_lookup_alter_ne by done. unfold unhighlight.
  destruct (Planes st !! prop_key (Selected st)) as [po|] eqn:Hpo; [|done].
  destruct (Hwf _ _ Hpo) as (_ & ho & mo & Hho & Hmo & _ & Hono & _).
  rewrite Hho. simpl.
  assert (ho <> j) by (intros ->; congruence).
  by rewrite list_lookup_alter_ne.
Qed.

Lemma selectPlane_last_wins st A B :
  wf st -> no_orphans st -> is_Some (Planes st !! B) ->
  selectPlane B (selectPlane A st) = selectPlane B st.
Proof.
  intros Hwf Hno [pb HB].
  destruct (Planes st !! A) as [pa|] eqn:HA; [|by rewrite (selectPlane_absent st A)].
  pose proof (selectPlane_wf st A Hwf) as HwfA.
  assert (Planes (selectPlane A st) !! B = Some pb) as HB'
    by (by rewrite selectPlane_Planes).
  apply State_eq.
  - by rewrite !selectPlane_Planes.
  - destruct (selectPlane_NumPlanes_geninfo (selectPlane A st) B) as [-> _].
    destruct (selectPlane_NumPlanes_geninfo st A) as [-> _].
    by destruct (selectPlane_NumPlanes_geninfo st B) as [-> _].
  - by rewrite !selectPlane_Selected by eauto.
  - apply list_eq. intros j.
    destruct (markers st !! j) as [m|] eqn:Hm.
    + destruct (onmap m) eqn:Hon.
      * destruct (Hno j m Hm Hon) as (k & p & Hx & Hp & Hj).
        destruct (selectPlane_marker_of st B k p Hwf (mk_is_Some _ _ HB) Hp)
          as (h1 & m1 & Hh1 & Hm1 & HmB0).
        destruct (selectPlane_marker_of st A k p Hwf (mk_is_Some _ _ HA) Hp)
          as (h2 & m2 & Hh2 & Hm2 & HmA).
        destruct (selectPlane_marker_of (selectPlane A st) B k p HwfA
                    (mk_is_Some _ _ HB')) as (h3 & m3 & Hh3 & Hm3 & HmB);
          [by rewrite selectPlane_Planes|].
        assert (h1 = j) as -> by congruence.
        assert (h2 = j) as -> by congruence.
        assert (h3 = j) as -> by congruence.
        rewrite HmB, HmB0. rewrite HmA in Hm3. injection Hm3 as <-.
        assert (m2 = m1) as -> by congruence. done.
      * rewrite (selectPlane_offmap_untouched st B j m Hwf Hm Hon).
        apply (selectPlane_offmap_untouched _ B j m HwfA); [|done].
        by apply selectPlane_offmap_untouched.
    + apply lookup_ge_None in Hm.
      rewrite (proj2 (lookup_ge_None _ j)), (proj2 (lookup_ge_None _ j)); [done| |].
      * by rewrite selectPlane_touches_lengths.
      * by rewrite !selectPlane_touches_lengths.
  - by rewrite (selectPlane_selinfo _ B pb HB'), (selectPlane_selinfo _ B pb HB).
  - destruct (selectPlane_NumPlanes_geninfo (selectPlane A st) B) as [_ ->].
    destruct (selectPlane_NumPlanes_geninfo st A) as [_ ->].
    by destruct (selectPlane_NumPlanes_geninfo st B) as [_ ->].
Qed.

(** X19. Of two clicks in a row only the last one shows: from any state
    the page reaches, clicking [A] and then a registered [B] gives the
    very same state as clicking [B] alone. *)
Theorem selectPlane_twice_is_last (evs : list event) A B :
  is_Some (Planes (run evs) !! B) ->
  selectPlane B (selectPlane A (run evs)) = selectPlane B (run evs).
Proof. apply selectPlane_last_wins; [apply run_wf | apply run_no_orphans]. Qed.

End Properties.

(** ** The scenarios of the specification, run on the model *)

Import Example.

(** The page after the first snapshot with a click on the marker of A1. *)
Definition clicked : State Z := run [Response [a1]; Click 0%nat].

(** The page after a snapshot with A1 and B2. *)
Definition two_planes : State Z := fetchData [a1; b2] init.

Lemma clicked_Selected : Selected clicked = Some "A1".
Proof. by vm_compute. Qed.

Lemma clicked_selection_valid : selection_valid clicked.
Proof.
  intros k. rewrite clicked_Selected. intros [= <-].
  eexists. by vm_compute.
Qed.

Lemma clicked_wf : wf clicked.
Proof. unfold clicked. apply run_wf. Qed.

Lemma clicked_registered : is_Some (Planes clicked !! "A1").
Proof. eexists. by vm_compute. Qed.

Lemma two_planes_wf : wf two_planes.
Proof. apply fetchData_wf, init_wf. Qed.

(** The end-to-end scenarios: a first snapshot with A1; a second one
    with A1 at the ceiling and a new B2; a third one without A1. *)
Example scenario_first_snapshot :
  let st := run [Response [a1]; Tick] in
  (map_to_list (Planes st)).*1 = ["A1"] /\
  (position <$> marker_of st "A1") = Some (10, 20) /\
  (title <$> marker_of st "A1") = Some (Some "A1") /\
  geninfo st = "1 planes on screen.".
Proof. repeat split; by vm_compute. Qed.

Example scenario_second_snapshot :
  let st := run [Response [a1]; Tick; Response [a1'; b2]; Tick] in
  size (Planes st) = 2%nat /\
  (fillColor <$> (icon <$> marker_of st "A1")) = Some "rgb(255,255,0)" /\
  (onmap <$> marker_of st "B2") = Some true /\
  geninfo st = "2 planes on screen.".
Proof. repeat split; by vm_compute. Qed.

Example scenario_third_snapshot :
  let st := run [Response [a1]; Tick; Response [a1'; b2]; Tick; Response [b2]] in
  (map_to_list (Planes st)).*1 = ["B2"] /\
  (onmap <$> markers st !! 0%nat) = Some false /\
  (planehex <$> markers st !! 0%nat) = Some (Some "A1").
Proof. repeat split; by vm_compute. Qed.

(** C5, at the failing input.  A1 is created by the first snapshot and its
    marker is clicked before a second snapshot arrives: the panel shows
    identity, altitude and speed, but [undefined, undefined] for the
    coordinates, the entry having no [lat] and [lon] yet.  Once a second
    snapshot has updated the entry and re-rendered the panel, the
    coordinates are shown. *)
Theorem selinfo_first_sighting :
  selinfo clicked
    = "ICAO: A1<br>Altitude: 0 feet<br>Speed: 100 knots<br>Coordinates: undefined, undefined<br>" /\
  selinfo (step clicked (Response [a1]))
    = "ICAO: A1<br>Altitude: 0 feet<br>Speed: 100 knots<br>Coordinates: 10, 20<br>".
Proof. split; by vm_compute. Qed.

(** C6 fails on the code: with A1 selected, a snapshot without A1 removes
    the entry and leaves the selection naming it. *)
Lemma selection_dangles_after_removal :
  selection_valid clicked /\
  Selected (step clicked (Response [])) = Some "A1" /\
  Planes (step clicked (Response [])) !! "A1" = None /\
  ~ selection_valid (step clicked (Response [])).
Proof.
  split; [apply clicked_selection_valid|].
  assert (Selected (step clicked (Response [])) = Some "A1") as Hs by (by vm_compute).
  assert (Planes (step clicked (Response [])) !! "A1" = None) as Hp by (by vm_compute).
  split; [done|]. split; [done|].
  intros Hv. destruct (Hv "A1" Hs) as [p Hp']. congruence.
Qed.

(** C9 fails on the code: one foot below sea level the blue channel is
    255, which is in range; and the channel is not the integer part of the
    exact interpolation everywhere (458 against 459 at -32000 ft). *)
Lemma blue_at_minus_one :
  Json.altitude low < 0 /\
  ~ (255 < blue (Json.altitude low)) /\
  fillColor (getIconForPlane None (of_json low)) = "rgb(255,255,255)" /\
  blue (-32000) = 458 /\ 255 * (maxalt - -32000) / maxalt = 459.
Proof.
  assert (blue (Json.altitude low) = 255) as Hb by (by vm_compute).
  split; [done|]. split; [rewrite Hb; lia|].
  repeat split; by vm_compute.
Qed.

(** *** Instances of the theorems *)

Lemma fetchData_updates_existing_witness :
  exists p,
    Planes (fetchData [a1'; b2] (fetchData [a1] init)) !! "A1" = Some p /\
    (forall k' p', Planes (fetchData [a1'; b2] (fetchData [a1] init)) !! k' = Some p' ->
                   icao p' = "A1" -> k' = "A1") /\
    icao p = "A1" /\
    lat p = Some 11 /\ lon p = Some 21 /\
    altitude p = 40000 /\ speed p = 120 /\
    track p = 45 /\ flight p = "UAL123" /\
    exists m, marker_of (fetchData [a1'; b2] (fetchData [a1] init)) "A1" = Some m /\
      position m = (11, 21) /\ onmap m = true.
Proof.
  apply (fetchData_updates_existing init [a1] [a1'; b2] "A1" a1');
    [apply init_wf | unfold ids; simpl; set_solver | reflexivity].
Defined.

Lemma fetchData_removes_absent_witness :
  Planes (fetchData [b2] two_planes) !! "A1" = None /\
  exists h m, marker (set_marker 0 (trimmed a1)) = Some h /\
    markers (fetchData [b2] two_planes) !! h = Some m /\ onmap m = false.
Proof.
  apply (fetchData_removes_absent two_planes [b2] "A1" (set_marker 0 (trimmed a1)));
    [apply two_planes_wf | by vm_compute | unfold ids; simpl; set_solver].
Defined.

Lemma getIconForPlane_sea_level_witness :
  fillColor (getIconForPlane (Some "A1") (of_json a1)) = "rgb(255,255,254)".
Proof. apply (getIconForPlane_sea_level (Some "A1") (of_json a1)). reflexivity. Defined.

Lemma selectPlane_twice_witness :
  Selected (selectPlane "A1" two_planes) = Some "A1" /\
  (forall k p, Planes (selectPlane "A1" two_planes) !! k = Some p -> k <> "A1" ->
     exists m, marker_of (selectPlane "A1" two_planes) k = Some m /\
               strokeWeight (icon m) = 1) /\
  Selected (selectPlane "B2" (selectPlane "A1" two_planes)) = Some "B2" /\
  (exists mA, marker_of (selectPlane "B2" (selectPlane "A1" two_planes)) "A1" = Some mA /\
              strokeWeight (icon mA) = 1) /\
  (exists mB, marker_of (selectPlane "B2" (selectPlane "A1" two_planes)) "B2" = Some mB /\
              strokeWeight (icon mB) = 2) /\
  (forall k p, Planes (selectPlane "B2" (selectPlane "A1" two_planes)) !! k = Some p ->
     k <> "B2" ->
     exists m, marker_of (selectPlane "B2" (selectPlane "A1" two_planes)) k = Some m /\
               strokeWeight (icon m) = 1).
Proof.
  apply (selectPlane_twice two_planes "A1" "B2");
    [apply two_planes_wf | eexists; by vm_compute | eexists; by vm_compute | done].
Defined.

Lemma selection_valid_step_witness :
  Selected (step clicked (Response [b2])) = Selected clicked /\
  (selection_valid (step clicked (Response [b2])) <->
   forall s, Selected clicked = Some s -> s ∈ ids [b2]).
Proof.
  apply (selection_valid_step clicked (Response [b2])).
  apply clicked_selection_valid.
Defined.

Lemma fetchData_title_witness :
  (forall pre b post (w1 c w2 : string), [a1'; b2] = pre ++ b :: post ->
     Json.flight b = w1 +:+ c +:+ w2 ->
     whitespace w1 -> whitespace w2 -> tight c -> ascii_only (Json.flight b) ->
     exists m,
       marker_of (foldl fetch_one (init, ∅) (pre ++ [b])).1 (Json.icao b) = Some m /\
       title m = Some (if decide (c = "") then Json.icao b
                       else c +:+ " (" +:+ Json.icao b +:+ ")")) /\
  exists m, marker_of (fetchData [a1'; b2] init) "A1" = Some m /\
    title m = Some (if decide ("UAL123" = "") then Json.icao a1'
                    else "UAL123" +:+ " (" +:+ Json.icao a1' +:+ ")") /\
    (Json.flight a1' = "UAL123 " ->
     title m = Some ("UAL123 (" +:+ Json.icao a1' +:+ ")")).
Proof.
  apply (fetchData_title init [a1'; b2] "A1" a1' "" "UAL123" " ");
    [apply init_wf | reflexivity | reflexivity
    | constructor | repeat constructor; cbv; tauto
    | split; intros c [= <-]; cbv; intuition discriminate
    | repeat constructor].
Defined.

Lemma selectPlane_unknown_witness :
  selectPlane "A1" (fetchData [b2] two_planes) = fetchData [b2] two_planes /\
  (forall h m, markers (fetchData [b2] two_planes) !! h = Some m ->
     planehex m = Some "A1" -> click h (fetchData [b2] two_planes) = fetchData [b2] two_planes).
Proof.
  apply (selectPlane_unknown (fetchData [b2] two_planes) "A1"). by vm_compute.
Defined.

Lemma getIconForPlane_negative_altitude_witness :
  fillColor (getIconForPlane None (of_json low))
    = "rgb(255,255," +:+ pretty (blue (altitude (of_json low))) +:+ ")" /\
  (altitude (of_json low) <= -157 -> 255 < blue (altitude (of_json low))) /\
  (-156 <= altitude (of_json low) -> blue (altitude (of_json low)) = 255) /\
  (forall ceiling : Z, maxalt <= ceiling -> blue ceiling = 0).
Proof.
  apply (getIconForPlane_negative_altitude None (of_json low)).
  split; by vm_compute.
Defined.

Lemma selectPlane_same_witness :
  Selected (selectPlane "A1" clicked) = Selected clicked /\
  Planes (selectPlane "A1" clicked) = Planes clicked /\
  markers (selectPlane "A1" clicked) = markers clicked.
Proof.
  apply (selectPlane_same clicked "A1");
    [apply clicked_wf | apply clicked_Selected | apply clicked_registered].
Defined.


(** *** Instances of the further properties *)

(** The entries of A1 and B2 as the first snapshot with both creates
    them, and the page once the selected A1 has been removed. *)
Definition a1_entry : Plane Z := set_marker 0 (trimmed a1).
Definition b2_entry : Plane Z := set_marker 1 (trimmed b2).
Definition gone : State Z := step clicked (Response []).

Lemma gone_wf : wf gone.
Proof. apply step_wf, clicked_wf. Qed.

Lemma fetchData_creates_new_witness :
  exists h m,
    Planes (fetchData [a1'; b2] init) !! "B2" = Some (set_marker h (trimmed b2)) /\
    lat (set_marker h (trimmed b2)) = None /\
    lon (set_marker h (trimmed b2)) = None /\
    (length (markers (init : State Z)) <= h)%nat /\
    markers (fetchData [a1'; b2] init) !! h = Some m /\
    position m = (Json.latitude b2, Json.longitude b2) /\
    onmap m = true /\ planehex m = Some "B2" /\
    title m = Some (title_text (trimmed b2)) /\
    icon m = getIconForPlane (Selected (init : State Z)) (trimmed b2).
Proof.
  apply (fetchData_creates_new init [a1'; b2] "B2" b2);
    [apply init_wf | reflexivity | reflexivity].
Defined.

Lemma selectPlane_shows_details_witness :
  selinfo (selectPlane "B2" two_planes) =
    ("ICAO: " +:+ icao b2_entry +:+ "<br>")
    +:+ (if decide (flight b2_entry = "") then ""
         else "<b>" +:+ flight b2_entry +:+ "</b><br>")
    +:+ ("Altitude: " +:+ pretty (altitude b2_entry) +:+ " feet<br>")
    +:+ ("Speed: " +:+ number_to_string (speed b2_entry) +:+ " knots<br>")
    +:+ ("Coordinates: " +:+ show_prop (lat b2_entry) +:+ ", "
           +:+ show_prop (lon b2_entry) +:+ "<br>").
Proof.
  apply (selectPlane_shows_details two_planes "B2" b2_entry). by vm_compute.
Defined.

Lemma fetchData_refreshes_panel_witness :
  Planes (fetchData [a1'] clicked) !! "A1"
    = Some (update_plane a1_entry (trimmed a1')) /\
  selinfo (fetchData [a1'] clicked) =
    ("ICAO: " +:+ icao a1_entry +:+ "<br>")
    +:+ (if decide (trim (Json.flight a1') = "") then ""
         else "<b>" +:+ trim (Json.flight a1') +:+ "</b><br>")
    +:+ ("Altitude: " +:+ pretty (Json.altitude a1') +:+ " feet<br>")
    +:+ ("Speed: " +:+ number_to_string (Json.speed a1') +:+ " knots<br>")
    +:+ ("Coordinates: " +:+ number_to_string (Json.latitude a1') +:+ ", "
           +:+ number_to_string (Json.longitude a1') +:+ "<br>").
Proof.
  apply (fetchData_refreshes_panel clicked [a1'] "A1" a1_entry a1');
    [apply clicked_wf | apply clicked_Selected | by vm_compute | reflexivity].
Defined.

Lemma fetchData_keeps_panel_witness :
  selinfo (fetchData [b2] clicked) = selinfo clicked /\
  Selected (fetchData [b2] clicked) = Selected clicked.
Proof.
  apply (fetchData_keeps_panel clicked [b2]); [apply clicked_wf|].
  intros s. rewrite clicked_Selected. intros [= <-].
  unfold ids. simpl. set_solver.
Defined.

Lemma click_selects_marker_plane_witness :
  click 1 two_planes = selectPlane "B2" two_planes /\
  Selected (click 1 two_planes) = Some "B2" /\
  exists m, markers (click 1 two_planes) !! 1%nat = Some m /\
            strokeWeight (icon m) = 2.
Proof.
  apply (click_selects_marker_plane two_planes "B2" b2_entry 1);
    [apply two_planes_wf | by vm_compute | reflexivity].
Defined.

Lemma blue_antitone_witness :
  0 <= blue 30000 <= blue 1000 /\ blue 1000 <= 254.
Proof. apply (blue_antitone 1000 30000). lia. Defined.

Lemma fetchData_blank_callsign_witness :
  (exists p, Planes (fetchData [blank] init) !! "D4" = Some p /\ flight p = "") /\
  (exists m, marker_of (fetchData [blank] init) "D4" = Some m /\
             title m = Some "D4").
Proof.
  apply (fetchData_blank_callsign init [blank] "D4" blank);
    [apply init_wf | reflexivity | repeat constructor].
Defined.

Lemma reachable_entry_has_marker_witness :
  icao a1_entry = "A1" /\
  exists h m, marker a1_entry = Some h /\
    markers (run [Response [a1]; Click 0%nat]) !! h = Some m /\
    planehex m = Some "A1" /\ onmap m = true /\
    icon m = getIconForPlane (Selected (run [Response [a1]; Click 0%nat])) a1_entry /\
    forall k' p', Planes (run [Response [a1]; Click 0%nat]) !! k' = Some p' ->
                  marker p' = Some h -> k' = "A1".
Proof.
  apply (reachable_entry_has_marker [Response [a1]; Click 0%nat] "A1" a1_entry).
  by vm_compute.
Defined.

Lemma reachable_marker_has_entry_witness :
  exists k p, planehex (new_marker None a1) = Some k /\
    Planes (run [Response [a1]]) !! k = Some p /\ marker p = Some 0%nat.
Proof.
  apply (reachable_marker_has_entry [Response [a1]] 0 (new_marker None a1));
    [by vm_compute | reflexivity].
Defined.

Lemma fetchData_keeps_marker_witness :
  exists p, Planes (fetchData [a1'] two_planes) !! "A1" = Some p /\
    marker p = marker a1_entry /\ icao p = icao a1_entry /\
    latitude p = latitude a1_entry /\ longitude p = longitude a1_entry /\
    lat p = Some (Json.latitude a1') /\ lon p = Some (Json.longitude a1').
Proof.
  apply (fetchData_keeps_marker two_planes [a1'] "A1" a1_entry a1');
    [by vm_compute | reflexivity].
Defined.

Lemma fetchData_returning_selection_witness :
  (exists m, marker_of (fetchData [a1'] gone) "A1" = Some m /\
             strokeWeight (icon m) = 2) /\
  selinfo (fetchData [a1'] gone) = selinfo gone.
Proof.
  apply (fetchData_returning_selection gone [a1'] "A1" a1');
    [apply gone_wf | by vm_compute | by vm_compute | reflexivity].
Defined.

Lemma selectPlane_twice_is_last_witness :
  selectPlane "B2" (selectPlane "A1" (run [Response [a1; b2]]))
    = selectPlane "B2" (run [Response [a1; b2]]).
Proof.
  apply (selectPlane_twice_is_last [Response [a1; b2]] "A1" "B2").
  eexists. by vm_compute.
Defined.
